(** * MediBridge ICD-11 mapping: the taxonomy converter and the /analyze service

    A shallow embedding of [convert_icd11_to_json.py] (the offline table
    builder) and of [mednlp_service.py] (the online entity-to-code
    resolution), with the properties of the resolution pipeline. *)

From Stdlib Require Import Floats.
From stdpp Require Import base option list gmap strings.

(** ** Python strings

    A Python [str] is a sequence of Unicode code points. *)

Module PyStr.

Abbreviation char := N.
Abbreviation pystr := (list N).

(** A string literal of the source, code point by code point. *)
Fixpoint py (s : string) : pystr :=
  match s with
  | EmptyString => []
  | String a r => Ascii.N_of_ascii a :: py r
  end.

(** Truthiness of a [str]: [if s] holds when [s] is not empty. *)
Definition truthy (s : pystr) : bool :=
  match s with [] => false | _ :: _ => true end.

(** The code points [str.strip()] removes: those of [str.isspace]. *)
Definition isspace (c : char) : bool :=
  ((9 <=? c) && (c <=? 13) || (28 <=? c) && (c <=? 32)
   || (c =? 133) || (c =? 160) || (c =? 5760)
   || (8192 <=? c) && (c <=? 8202)
   || (c =? 8232) || (c =? 8233) || (c =? 8239) || (c =? 8287)
   || (c =? 12288))%N.

Definition quote : char := 34%N.   (* the double quote *)
Definition hyphen : char := 45%N.  (* "-" *)
Definition space : char := 32%N.   (* " " *)

Definition is_quote (c : char) : bool := (c =? quote)%N.
Definition is_hyphen (c : char) : bool := (c =? hyphen)%N.

(** [s.lstrip(chars)], with the stripped set given as a test. *)
Fixpoint lstrip_by (p : char -> bool) (s : pystr) : pystr :=
  match s with
  | [] => []
  | c :: r => if p c then lstrip_by p r else s
  end.

(** [s.rstrip(chars)]. *)
Fixpoint rstrip_by (p : char -> bool) (s : pystr) : pystr :=
  match s with
  | [] => []
  | c :: r =>
      match rstrip_by p r with
      | [] => if p c then [] else [c]
      | r' => c :: r'
      end
  end.

(** [s.strip(chars)]: both ends. *)
Definition strip_by (p : char -> bool) (s : pystr) : pystr :=
  rstrip_by p (lstrip_by p s).

(** [s.strip()] *)
Definition strip (s : pystr) : pystr := strip_by isspace s.

(** [s.strip(q)] with [q] the one-character string of the double quote. *)
Definition strip_quotes (s : pystr) : pystr := strip_by is_quote s.

(** [s.replace("-", "")]: every hyphen is dropped. *)
Definition remove_hyphens (s : pystr) : pystr :=
  filter (fun c => is_hyphen c = false) s.

(** [sep.join(parts)] *)
Fixpoint join (sep : pystr) (parts : list pystr) : pystr :=
  match parts with
  | [] => []
  | [x] => x
  | x :: rest => x ++ sep ++ join sep rest
  end.

(** A string of white space only (the empty string included). *)
Definition blank (s : pystr) : bool := forallb isspace s.

(** [str.lower] on ASCII text: the letters A..Z move to a..z and every other
    ASCII code point stays.  The development is parametric in [str.lower];
    this instance evaluates the examples, whose text is ASCII. *)
Definition ascii_lower (s : pystr) : pystr :=
  map (fun c => if (65 <=? c) && (c <=? 90) then c + 32 else c)%N s.

End PyStr.

Import PyStr.

(** ** The lookup table

    The converter writes, and the service reads, a JSON object whose values
    are objects of the shape [{"code": ..., "desc": ...}]. *)

Record TaxonomyEntry := { code : pystr; desc : pystr }.

#[global] Instance TaxonomyEntry_eq_dec : EqDecision TaxonomyEntry.
Proof. solve_decision. Defined.

Abbreviation LookupTable := (gmap pystr TaxonomyEntry).

(** ** convert_icd11_to_json.py *)

(** One row of the tab-separated export as [csv.DictReader] yields it: a
    dict from column names to text.  [None] is a column the row dict does
    not have, for which [row.get(name, "")] gives the empty string.  The
    rows are those with a cell of text under each column they have. *)
Record Row := {
  Code : option pystr;
  Title : option pystr;
  ClassKind : option pystr
}.

(** [row.get(name, "")] *)
Definition get_or_empty (cell : option pystr) : pystr := default [] cell.

Section Converter.

(** [str.lower] *)
Variable lower : pystr -> pystr.

(** [row.get("Code", "").strip()] *)
Definition row_code (row : Row) : pystr := strip (get_or_empty (Code row)).

(** [row.get("Title", "").strip().strip(q).replace("-", "").strip()], with
    [q] the one-character string of the double quote. *)
Definition clean_title (t : pystr) : pystr :=
  strip (remove_hyphens (strip_quotes (strip t))).

Definition row_title (row : Row) : pystr := clean_title (get_or_empty (Title row)).

(** [row.get("ClassKind", "").strip()] *)
Definition row_class_kind (row : Row) : pystr := strip (get_or_empty (ClassKind row)).

(** The test [code and title and class_kind == "category"]. *)
Definition row_accepted (row : Row) : bool :=
  truthy (row_code row) && truthy (row_title row)
  && bool_decide (row_class_kind row = py "category").

(** The body of the [for row in reader] loop on the dict built so far. *)
Definition convert_row (icd_dict : gmap pystr TaxonomyEntry) (row : Row)
  : gmap pystr TaxonomyEntry :=
  let code := row_code row in
  let title := row_title row in
  let class_kind := row_class_kind row in
  if truthy code && truthy title && bool_decide (class_kind = py "category")
  then
    let key := lower title in
    <[ key := {| code := code; desc := title |} ]> icd_dict
  else icd_dict.

(** The whole loop, from [icd_dict = {}]. *)
Definition convert (rows : list Row) : gmap pystr TaxonomyEntry :=
  foldl convert_row ∅ rows.

(** The count printed at the end: [len(icd_dict)]. *)
Definition convert_count (rows : list Row) : nat := size (convert rows).

End Converter.

(** ** mednlp_service.py *)

(** The exceptions the service sees: FastAPI's [HTTPException] and any other
    [Exception] (what the extractor or the standard library raises).  These
    are the instances of [Exception], which [except Exception] catches; a
    [BaseException] that is not one ([KeyboardInterrupt], a cancellation) is
    not among them. *)
Inductive PyExc :=
| HTTPException (status_code : Z) (detail : pystr)
| Exception (msg : pystr).

(** One element of [doc.ents]. *)
Record Ent := { text : pystr; label_ : pystr }.

Record AnalyzeRequest := {
  diagnosis : option pystr;
  prescription : option pystr;
  treatment : option pystr
}.

(** The dict appended to [entities]. *)
Module EntityResult.
Record t := {
  text : pystr;
  label : pystr;
  icd_code : option pystr;
  icd_description : option pystr;
  confidence : float
}.
End EntityResult.

(** The dict appended to [icd_codes]. *)
Module CodeResult.
Record t := {
  entity : pystr;
  icd_code : option pystr;
  icd_description : option pystr;
  confidence : float
}.
End CodeResult.

Record AnalyzeResponse := {
  entities : list EntityResult.t;
  icd_codes : list CodeResult.t
}.

(** The three variables the [for ent in doc.ents] loop updates. *)
Record LoopState := {
  st_entities : list EntityResult.t;
  st_icd_codes : list CodeResult.t;
  seen_codes : gset pystr
}.

(** Computations of a request: they may raise, and they record the texts the
    extractor was called on. *)
Definition M (A : Type) : Type := list pystr -> (PyExc + A) * list pystr.

#[global] Instance M_ret : MRet M := fun A x calls => (inr x, calls).

#[global] Instance M_bind : MBind M := fun A B f m calls =>
  match m calls with
  | (inl e, calls') => (inl e, calls')
  | (inr x, calls') => f x calls'
  end.

Definition raise {A} (e : PyExc) : M A := fun calls => (inl e, calls).

(** [try: body except Exception as e: handler(e)] *)
Definition try_except {A} (body : M A) (handler : PyExc -> M A) : M A :=
  fun calls =>
    match body calls with
    | (inl e, calls') => handler e calls'
    | (inr x, calls') => (inr x, calls')
    end.

(** [x or ""] on an [Optional[str]] field. *)
Definition or_empty (field : option pystr) : pystr :=
  match field with
  | Some s => if truthy s then s else []
  | None => []
  end.

(** Truthiness of [ICD11_DICT.get(ent_text)] on a table of entries: [None]
    is false, and an entry, a dict with the two keys "code" and "desc", is
    true.  [truthy_val], below, is the test on any loaded value. *)
Definition info_truthy (icd_info : option TaxonomyEntry) : bool :=
  match icd_info with Some _ => true | None => false end.

(** [ICD11_DICT = json.load(f)], or [{}] when opening or parsing raised. *)
Definition load_ICD11_DICT (loaded : PyExc + gmap pystr TaxonomyEntry)
  : gmap pystr TaxonomyEntry :=
  match loaded with
  | inr d => d
  | inl _ => ∅
  end.

Section Service.

(** [str.lower] and [str(e)]. *)
Variable lower : pystr -> pystr.
Variable str_exc : PyExc -> pystr.

(** The extractor: [nlp(text).ents], or the exception it raises. *)
Variable nlp : pystr -> PyExc + list Ent.

Variable ICD11_DICT : gmap pystr TaxonomyEntry.

(** [doc = nlp(text)] *)
Definition call_nlp (text : pystr) : M (list Ent) :=
  fun calls => (nlp text, calls ++ [text]).

(** The text of a request:
    [" ".join([diagnosis or "", prescription or "", treatment or ""]).strip()] *)
Definition request_text (request : AnalyzeRequest) : pystr :=
  strip (join [space] [or_empty (diagnosis request);
                       or_empty (prescription request);
                       or_empty (treatment request)]).

(** The resolution of one entity: the first half of the loop body, up to the
    dict that is appended to [entities].  Under [if icd_info] the value is an
    entry of the table, of which [isinstance(icd_info, dict)] holds, and
    [icd_info.get("code")] and [icd_info.get("desc")] are its two fields.
    [resolve_loaded], below, is the same turn of the loop on any loaded
    value, with the branches a table of entries never takes. *)
Definition resolve (ent : Ent) : EntityResult.t :=
  let ent_text := lower (strip (text ent)) in
  let icd_info := ICD11_DICT !! ent_text in
  let confidence := if info_truthy icd_info then 1%float else 0%float in
  let '(icd_code, icd_description) :=
    match icd_info with
    | Some info => (Some (code info), Some (desc info))
    | None => (None, None)
    end in
  {| EntityResult.text := text ent;
     EntityResult.label := label_ ent;
     EntityResult.icd_code := icd_code;
     EntityResult.icd_description := icd_description;
     EntityResult.confidence := confidence |}.

(** One turn of the loop.  The test [icd_code and icd_code not in seen_codes]
    sits under [if icd_info], where alone [icd_code] is not [None]. *)
Definition loop_body (st : LoopState) (ent : Ent) : LoopState :=
  let r := resolve ent in
  let st1 :=
    match EntityResult.icd_code r with
    | Some c =>
        if truthy c && bool_decide (c ∉ seen_codes st) then
          {| st_entities := st_entities st;
             st_icd_codes := st_icd_codes st ++
               [ {| CodeResult.entity := text ent;
                    CodeResult.icd_code := Some c;
                    CodeResult.icd_description := EntityResult.icd_description r;
                    CodeResult.confidence := EntityResult.confidence r |} ];
             seen_codes := seen_codes st ∪ {[ c ]} |}
        else st
    | None => st
    end in
  {| st_entities := st_entities st1 ++ [r];
     st_icd_codes := st_icd_codes st1;
     seen_codes := seen_codes st1 |}.

Definition loop (st : LoopState) (ents : list Ent) : LoopState :=
  foldl loop_body st ents.

Definition init_state : LoopState :=
  {| st_entities := []; st_icd_codes := []; seen_codes := ∅ |}.

(** The response built from the entities of a document. *)
Definition aggregate (ents : list Ent) : AnalyzeResponse :=
  let st := loop init_state ents in
  {| entities := st_entities st; icd_codes := st_icd_codes st |}.

(** The body of the [try]. *)
Definition analyze_body (request : AnalyzeRequest) : M AnalyzeResponse :=
  let text := request_text request in
  _ ← (if negb (truthy text)
       then raise (HTTPException 400 (py "No text provided."))
       else mret tt);
  ents ← call_nlp text;
  mret (aggregate ents).

(** [analyze]: the body under [except Exception as e], which raises
    [HTTPException(status_code=500, detail=str(e))]. *)
Definition analyze (request : AnalyzeRequest) : M AnalyzeResponse :=
  try_except (analyze_body request)
             (fun e => raise (HTTPException 500 (str_exc e))).

End Service.

(** Start of the process: a model that fails to load ends it, a mapping that
    fails to load leaves an empty dict. *)
Record Service := {
  svc_nlp : pystr -> PyExc + list Ent;
  svc_ICD11_DICT : gmap pystr TaxonomyEntry
}.

Definition startup (model : PyExc + (pystr -> PyExc + list Ent))
                   (mapping : PyExc + gmap pystr TaxonomyEntry)
  : PyExc + Service :=
  match model with
  | inl e => inl e
  | inr nlp => inr {| svc_nlp := nlp; svc_ICD11_DICT := load_ICD11_DICT mapping |}
  end.

Definition serve (lower : pystr -> pystr) (str_exc : PyExc -> pystr)
                 (svc : Service) (request : AnalyzeRequest) : M AnalyzeResponse :=
  analyze lower str_exc (svc_nlp svc) (svc_ICD11_DICT svc) request.

(** The entry a row gives, when it is accepted. *)
Definition row_entry (row : Row) : TaxonomyEntry :=
  {| code := row_code row; desc := row_title row |}.

(** The dict of an entity that is not in the table. *)
Definition unmatched (ent : Ent) : EntityResult.t :=
  {| EntityResult.text := text ent;
     EntityResult.label := label_ ent;
     EntityResult.icd_code := None;
     EntityResult.icd_description := None;
     EntityResult.confidence := 0%float |}.

(** ** The invariant of the loop of [analyze] *)

Section LoopInvariant.

Variable lower : pystr -> pystr.
Variable ICD11_DICT : gmap pystr TaxonomyEntry.

(** The dict the loop appends to [icd_codes] at an entity with code [c]. *)
Definition code_result (ent : Ent) (c : pystr) : CodeResult.t :=
  let r := resolve lower ICD11_DICT ent in
  {| CodeResult.entity := text ent;
     CodeResult.icd_code := Some c;
     CodeResult.icd_description := EntityResult.icd_description r;
     CodeResult.confidence := EntityResult.confidence r |}.

(** [cr] was made at the first of the entities [ents] with its code. *)
Definition first_with_code (ents : list Ent) (cr : CodeResult.t) : Prop :=
  exists pre ent post c,
    ents = pre ++ ent :: post
    /\ EntityResult.icd_code (resolve lower ICD11_DICT ent) = Some c
    /\ c <> []
    /\ cr = code_result ent c
    /\ forall e, e ∈ pre ->
         EntityResult.icd_code (resolve lower ICD11_DICT e) <> Some c.

(** The state after the entities [ents] went through the loop. *)
Record loop_inv (ents : list Ent) (st : LoopState) : Prop := {
  inv_entities : st_entities st = resolve lower ICD11_DICT <$> ents;
  inv_seen : forall c,
    c ∈ seen_codes st <-> Some c ∈ (CodeResult.icd_code <$> st_icd_codes st);
  inv_nodup : NoDup (CodeResult.icd_code <$> st_icd_codes st);
  inv_first : forall cr, cr ∈ st_icd_codes st -> first_with_code ents cr;
  inv_all : forall e c, e ∈ ents ->
    EntityResult.icd_code (resolve lower ICD11_DICT e) = Some c -> c <> [] ->
    c ∈ seen_codes st
}.

End LoopInvariant.

(** ** The mapping as [json.load] returns it

    What [json.load] can return: [None], a [bool], an [int], a [float], a
    [str], a [list] or a [dict] with [str] keys.  The service does not check
    what it loaded, and the loop tests what it finds. *)

#[warnings="-register-all"]
Inductive PyVal :=
| PyNone
| PyBool (b : bool)
| PyInt (z : Z)
| PyFloat (f : float)
| PyStr (s : pystr)
| PyList (l : list PyVal)
| PyDict (d : gmap pystr PyVal).

(** Truthiness of a value, as in [if icd_info] and [1.0 if icd_info else 0.0]. *)
Definition truthy_val (v : PyVal) : bool :=
  match v with
  | PyNone => false
  | PyBool b => b
  | PyInt z => negb (z =? 0)%Z
  | PyFloat f => negb (PrimFloat.eqb f 0%float)
  | PyStr s => truthy s
  | PyList l => match l with [] => false | _ :: _ => true end
  | PyDict d => negb (Nat.eqb (size d) 0)
  end.

(** [d.get(key)]: [None] for a key the dict does not have. *)
Definition dict_get (d : gmap pystr PyVal) (key : pystr) : PyVal :=
  default PyNone (d !! key).

(** The dict appended to [entities], with codes as they come from the
    mapping. *)
Module EntityDict.
Record t := {
  text : pystr;
  label : pystr;
  icd_code : PyVal;
  icd_description : PyVal;
  confidence : float
}.
End EntityDict.

(** A value that cannot be hashed: a [list] or a [dict]. *)
Definition unhashable (v : PyVal) : bool :=
  match v with
  | PyList _ | PyDict _ => true
  | _ => false
  end.

(** [icd_info.get("code")] and [icd_info.get("desc")] of a dict value; any
    other value is the code itself, [icd_description] staying [None]. *)
Definition info_code (icd_info : PyVal) : PyVal :=
  match icd_info with
  | PyDict info => dict_get info (py "code")
  | _ => icd_info
  end.

Definition info_description (icd_info : PyVal) : PyVal :=
  match icd_info with
  | PyDict info => dict_get info (py "desc")
  | _ => PyNone
  end.

(** One turn of the loop on what was loaded, whatever it is, up to the dict
    appended to [entities]: the lookup, the confidence, the code and the
    description of one entity.  A mapping that is not a dict has no [get]:
    the lookup raises [AttributeError].  Under [if icd_info], the test
    [icd_code and icd_code not in seen_codes] hashes a code that is true,
    which raises [TypeError] for a list or a dict, before the entity is
    appended. *)
Definition resolve_loaded (lower : pystr -> pystr) (ICD11_DICT : PyVal) (ent : Ent)
  : PyExc + EntityDict.t :=
  let ent_text := lower (strip (text ent)) in
  match ICD11_DICT with
  | PyDict d =>
      let icd_info := dict_get d ent_text in
      let confidence := if truthy_val icd_info then 1%float else 0%float in
      if truthy_val icd_info then
        let icd_code := info_code icd_info in
        let icd_description := info_description icd_info in
        if truthy_val icd_code && unhashable icd_code
        then inl (Exception (py "TypeError"))
        else inr {| EntityDict.text := text ent;
                    EntityDict.label := label_ ent;
                    EntityDict.icd_code := icd_code;
                    EntityDict.icd_description := icd_description;
                    EntityDict.confidence := confidence |}
      else inr {| EntityDict.text := text ent;
                  EntityDict.label := label_ ent;
                  EntityDict.icd_code := PyNone;
                  EntityDict.icd_description := PyNone;
                  EntityDict.confidence := confidence |}
  | _ => inl (Exception (py "AttributeError"))
  end.

(** An entry of the table as the value the converter dumps and the service
    loads: [{"code": code, "desc": title}]. *)
Definition entry_val (e : TaxonomyEntry) : PyVal :=
  PyDict (<[ py "code" := PyStr (code e) ]> {[ py "desc" := PyStr (desc e) ]}).

(** A table of entries as a loaded mapping. *)
Definition table_val (tbl : gmap pystr TaxonomyEntry) : PyVal :=
  PyDict (entry_val <$> tbl).

(** An [Optional[str]] as a value. *)
Definition opt_val (o : option pystr) : PyVal :=
  match o with Some s => PyStr s | None => PyNone end.

Definition entity_val (r : EntityResult.t) : EntityDict.t :=
  {| EntityDict.text := EntityResult.text r;
     EntityDict.label := EntityResult.label r;
     EntityDict.icd_code := opt_val (EntityResult.icd_code r);
     EntityDict.icd_description := opt_val (EntityResult.icd_description r);
     EntityDict.confidence := EntityResult.confidence r |}.


(** ** The request text as the specification words it

    The non-empty fields joined with one space, then trimmed. *)
Definition spec_request_text (request : AnalyzeRequest) : pystr :=
  strip (join [space]
           (filter (fun s => s <> [])
                   [or_empty (diagnosis request);
                    or_empty (prescription request);
                    or_empty (treatment request)])).

(** The acceptance test of a row as the specification words it: the class
    kind itself is compared with "category". *)
Definition spec_row_accepted (row : Row) : bool :=
  bool_decide (get_or_empty (ClassKind row) = py "category")
  && truthy (row_code row) && truthy (row_title row).

(** ** Example data *)

Definition fracture_table : gmap pystr TaxonomyEntry :=
  {[ py "fracture" := {| code := py "FA01"; desc := py "Fracture" |} ]}.

Definition fracture_ents : list Ent :=
  [ {| text := py "fracture"; label_ := py "DISEASE" |};
    {| text := py "Fracture"; label_ := py "DISEASE" |} ].

Definition cholera_row : Row :=
  {| Code := Some (py " 1A00 ");
     Title := Some (quote :: py "Type-1 Cholera" ++ [quote; space]);
     ClassKind := Some (py "category") |}.

Definition diabetes_row : Row :=
  {| Code := Some (py "5A10"); Title := Some (py "Type-1 diabetes");
     ClassKind := Some (py "category") |}.

Definition padded_kind_row : Row :=
  {| Code := Some (py "1A00"); Title := Some (py "Cholera");
     ClassKind := Some (py "category ") |}.

Definition cholera_rows : list Row :=
  [ {| Code := Some (py "1A00"); Title := Some (py "Cholera");
       ClassKind := Some (py "category") |};
    {| Code := Some (py "1A0Z"); Title := Some (py "cholera");
       ClassKind := Some (py "category") |} ].

Definition empty_code_table : gmap pystr TaxonomyEntry :=
  {[ py "fever" := {| code := []; desc := py "Fever" |} ]}.

Definition fever_ents : list Ent :=
  [ {| text := py "fever"; label_ := py "SYMPTOM" |} ].

Definition fever_nlp (text : pystr) : PyExc + list Ent := inr fever_ents.



Definition list_code_mapping : gmap pystr PyVal :=
  {[ py "fever" := PyList [PyStr (py "MG26")] ]}.

(** * Properties *)

(** ** Stripping *)

Section Strip.

Variable p : char -> bool.

Lemma lstrip_by_all w : forallb p w = true -> lstrip_by p w = [].
Proof.
  induction w as [|c w IH]; simpl; [done|].
  intros [Hc Hw]%andb_prop. rewrite Hc. auto.
Qed.

Lemma lstrip_by_app_l w s :
  forallb p w = true -> lstrip_by p (w ++ s) = lstrip_by p s.
Proof.
  induction w as [|c w IH]; simpl; [done|].
  intros [Hc Hw]%andb_prop. rewrite Hc. auto.
Qed.

Lemma lstrip_by_app_r s x :
  forallb p s = false -> lstrip_by p (s ++ x) = lstrip_by p s ++ x.
Proof.
  induction s as [|c s IH]; simpl; [done|].
  destruct (p c); simpl; [exact IH | done].
Qed.

Lemma lstrip_by_head s :
  match lstrip_by p s with [] => True | c :: _ => p c = false end.
Proof.
  induction s as [|c s IH]; simpl; [done|].
  destruct (p c) eqn:E; [exact IH | exact E].
Qed.

Lemma lstrip_by_id s :
  (forall c, head s = Some c -> p c = false) -> lstrip_by p s = s.
Proof.
  destruct s as [|c s]; simpl; [done|].
  intros H. by rewrite (H c eq_refl).
Qed.

Lemma elem_of_lstrip_by c s : c ∈ lstrip_by p s -> c ∈ s.
Proof.
  induction s as [|d s IH]; simpl; [done|].
  destruct (p d); [|done]. intros H. right. auto.
Qed.

Lemma rstrip_by_all w : forallb p w = true -> rstrip_by p w = [].
Proof.
  induction w as [|c w IH]; simpl; [done|].
  intros [Hc Hw]%andb_prop. rewrite (IH Hw), Hc. done.
Qed.

Lemma rstrip_by_nil s : rstrip_by p s = [] -> forallb p s = true.
Proof.
  induction s as [|c s IH]; simpl; [done|].
  destruct (rstrip_by p s) eqn:E; [|done].
  destruct (p c); [auto | done].
Qed.

Lemma rstrip_by_app_r s w :
  forallb p w = true -> rstrip_by p (s ++ w) = rstrip_by p s.
Proof.
  intros Hw. induction s as [|c s IH]; simpl.
  - by apply rstrip_by_all.
  - by rewrite IH.
Qed.

Lemma rstrip_by_app_l x t :
  forallb p t = false -> rstrip_by p (x ++ t) = x ++ rstrip_by p t.
Proof.
  intros Ht. induction x as [|c x IH]; simpl; [done|].
  rewrite IH. destruct (rstrip_by p t) eqn:E.
  - apply rstrip_by_nil in E. congruence.
  - by destruct x.
Qed.

Lemma rstrip_by_id s :
  (forall c, last s = Some c -> p c = false) -> rstrip_by p s = s.
Proof.
  induction s as [|c s IH]; simpl; [done|].
  destruct s as [|d s].
  - intros H. simpl. by rewrite (H c eq_refl).
  - intros H. rewrite IH; [done|]. intros c' Hc'. apply H. exact Hc'.
Qed.

Lemma rstrip_by_idemp s : rstrip_by p (rstrip_by p s) = rstrip_by p s.
Proof.
  induction s as [|c s IH]; simpl; [done|].
  destruct (rstrip_by p s) as [|d r] eqn:E.
  - destruct (p c) eqn:Hc; simpl; [done | by rewrite Hc].
  - simpl in *. by rewrite IH.
Qed.

Lemma rstrip_by_head s :
  head (rstrip_by p s) = None \/ head (rstrip_by p s) = head s.
Proof.
  destruct s as [|c s]; simpl; [by left|].
  destruct (rstrip_by p s); [destruct (p c)|]; simpl; auto.
Qed.

Lemma elem_of_rstrip_by c s : c ∈ rstrip_by p s -> c ∈ s.
Proof.
  induction s as [|d s IH]; simpl; [done|].
  destruct (rstrip_by p s) as [|e r] eqn:E.
  - destruct (p d); [by intros ?%elem_of_nil|].
    intros ->%list_elem_of_singleton. left.
  - intros [->|H]%elem_of_cons; [left | right; auto].
Qed.

(** Stripping on the right is stripping on the left of the mirror image. *)
Lemma rstrip_by_reverse s : rstrip_by p s = reverse (lstrip_by p (reverse s)).
Proof.
  induction s as [|c s IH] using rev_ind; [done|].
  rewrite reverse_snoc. simpl. destruct (p c) eqn:Hc.
  - rewrite rstrip_by_app_r by (simpl; by rewrite Hc). exact IH.
  - rewrite rstrip_by_app_l by (simpl; by rewrite Hc). simpl. rewrite Hc.
    by rewrite reverse_cons, reverse_involutive.
Qed.

Lemma strip_by_all w : forallb p w = true -> strip_by p w = [].
Proof. intros H. unfold strip_by. by rewrite lstrip_by_all. Qed.

(** Stripped characters around a string do not change what is left. *)
Lemma strip_by_pad w1 s w2 :
  forallb p w1 = true -> forallb p w2 = true ->
  strip_by p (w1 ++ s ++ w2) = strip_by p s.
Proof.
  intros H1 H2. unfold strip_by. rewrite lstrip_by_app_l by done.
  destruct (forallb p s) eqn:Hs.
  - rewrite !lstrip_by_all; [done | done |].
    rewrite forallb_app, Hs, H2. done.
  - rewrite lstrip_by_app_r by done. by apply rstrip_by_app_r.
Qed.

Lemma strip_by_id s :
  (forall c, head s = Some c -> p c = false) ->
  (forall c, last s = Some c -> p c = false) ->
  strip_by p s = s.
Proof.
  intros Hh Hl. unfold strip_by. rewrite lstrip_by_id by done.
  by apply rstrip_by_id.
Qed.

Lemma strip_by_idemp s : strip_by p (strip_by p s) = strip_by p s.
Proof.
  unfold strip_by.
  assert (Hl : lstrip_by p (rstrip_by p (lstrip_by p s))
               = rstrip_by p (lstrip_by p s)).
  { apply lstrip_by_id. intros c Hc.
    destruct (rstrip_by_head (lstrip_by p s)) as [E|E]; [congruence|].
    rewrite E in Hc. pose proof (lstrip_by_head s) as Hs.
    destruct (lstrip_by p s); simpl in Hc; [done | congruence]. }
  rewrite Hl. apply rstrip_by_idemp.
Qed.

Lemma elem_of_strip_by c s : c ∈ strip_by p s -> c ∈ s.
Proof. intros H. by apply elem_of_lstrip_by, elem_of_rstrip_by. Qed.

End Strip.

(** ** White space *)

Lemma strip_pad w1 s w2 :
  blank w1 = true -> blank w2 = true -> strip (w1 ++ s ++ w2) = strip s.
Proof. apply strip_by_pad. Qed.

Lemma strip_blank s : blank s = true -> strip s = [].
Proof. apply strip_by_all. Qed.

Lemma strip_idemp s : strip (strip s) = strip s.
Proof. apply strip_by_idemp. Qed.

Lemma strip_pad_eq a w1 s w2 :
  a = w1 ++ s ++ w2 -> blank w1 = true -> blank w2 = true ->
  strip a = strip s.
Proof. intros ->. apply strip_pad. Qed.

(** A string with a visible character keeps it, with what lies between the
    outermost visible characters. *)
Lemma strip_two_visible d m t :
  blank d = false -> blank t = false ->
  strip (d ++ m ++ t) = lstrip_by isspace d ++ m ++ rstrip_by isspace t.
Proof.
  intros Hd Ht. unfold strip, strip_by.
  rewrite lstrip_by_app_r by done.
  rewrite (app_assoc _ m t), rstrip_by_app_l by done.
  by rewrite <- app_assoc.
Qed.

Lemma filter_nonempty_cons (s : pystr) (l : list pystr) :
  filter (fun s => s <> []) (s :: l)
  = if truthy s then s :: filter (fun s => s <> []) l
    else filter (fun s => s <> []) l.
Proof.
  destruct s; simpl.
  - by rewrite filter_cons_False by (intros H; by apply H).
  - by rewrite filter_cons_True.
Qed.

Lemma or_empty_default field : or_empty field = default [] field.
Proof. by destruct field as [[|c s]|]. Qed.

(** ** The text of a request *)

Lemma join3 (d p t : pystr) :
  join [space] [d; p; t] = d ++ [space] ++ p ++ [space] ++ t.
Proof. reflexivity. Qed.

Ltac list_eq :=
  simpl; rewrite ?app_nil_r, <- ?app_assoc; simpl; reflexivity.

Lemma blank_app (a b : pystr) : blank (a ++ b) = blank a && blank b.
Proof. apply forallb_app. Qed.

(** Where the join of all three fields and the join of the non-empty ones
    have the same trimmed text. *)
Lemma join_all_nonempty (d p t : pystr) :
  p <> [] \/ blank d = true \/ blank t = true ->
  strip (join [space] [d; p; t])
  = strip (join [space] (filter (fun s => s <> []) [d; p; t])).
Proof.
  intros H. rewrite join3, !filter_nonempty_cons, filter_nil.
  destruct p as [|pc p]; simpl truthy.
  - destruct H as [H|[H|H]]; [done | |].
    + (* the diagnosis is blank *)
      transitivity (strip t).
      * apply (strip_pad_eq _ (d ++ [space; space]) t []);
          [list_eq | | done].
        by rewrite blank_app, H.
      * symmetry. destruct d as [|dc d], t as [|tc t]; simpl truthy; simpl join;
          try done.
        -- by apply strip_blank.
        -- apply (strip_pad_eq _ ((dc :: d) ++ [space]) (tc :: t) []);
             [list_eq | | done].
           by rewrite blank_app, H.
    + (* the treatment is blank *)
      transitivity (strip d).
      * apply (strip_pad_eq _ [] d ([space; space] ++ t)); [list_eq | done |].
        by rewrite blank_app, H.
      * symmetry. destruct d as [|dc d], t as [|tc t]; simpl truthy; simpl join;
          try done.
        -- by apply strip_blank.
        -- apply (strip_pad_eq _ [] (dc :: d) ([space] ++ tc :: t));
             [list_eq | done |].
           by rewrite blank_app, H.
  - clear H. destruct d as [|dc d], t as [|tc t]; simpl truthy; simpl join.
    + by apply (strip_pad_eq _ [space] (pc :: p) [space]).
    + apply (strip_pad_eq _ [space] (pc :: p ++ [space] ++ tc :: t) []);
        [list_eq | done | done].
    + apply (strip_pad_eq _ [] (dc :: d ++ [space] ++ pc :: p) [space]);
        [list_eq | done | done].
    + done.
Qed.

(** Where they differ: an empty prescription between two fields that both
    hold a visible character leaves two spaces, where the join of the
    non-empty fields has one. *)
Lemma join_all_double_space (d t : pystr) :
  blank d = false -> blank t = false ->
  strip (join [space] [d; []; t])
  = lstrip_by isspace d ++ [space; space] ++ rstrip_by isspace t
  /\ strip (join [space] (filter (fun s => s <> []) [d; []; t]))
  = lstrip_by isspace d ++ [space] ++ rstrip_by isspace t.
Proof.
  intros Hd Ht. rewrite join3, !filter_nonempty_cons, filter_nil.
  destruct d as [|dc d]; [done|]. destruct t as [|tc t]; [done|].
  simpl truthy. cbv iota. split.
  - by apply (strip_two_visible (dc :: d) [space; space] (tc :: t)).
  - by apply (strip_two_visible (dc :: d) [space] (tc :: t)).
Qed.


(** C2 (amended): the text of a request is the three fields, a null field as
    the empty string, joined in order with one space between neighbours and
    then trimmed.  It is the trimmed one-space join of the non-empty fields
    exactly when the prescription is not empty or the diagnosis or the
    treatment is blank (empty or white space only); with an empty
    prescription between a diagnosis and a treatment that both hold a visible
    character, two spaces stand between the two. *)
Theorem request_text_nonempty_join_iff (request : AnalyzeRequest) :
  let d := default [] (diagnosis request) in
  let p := default [] (prescription request) in
  let t := default [] (treatment request) in
  request_text request = strip (d ++ [space] ++ p ++ [space] ++ t)
  /\ (request_text request = spec_request_text request
      <-> (p <> [] \/ blank d = true \/ blank t = true))
  /\ (p = [] -> blank d = false -> blank t = false ->
      request_text request
      = lstrip_by isspace d ++ [space; space] ++ rstrip_by isspace t).
Proof.
  intros d p t. unfold request_text, spec_request_text.
  rewrite !or_empty_default. fold d p t. clearbody d p t.
  split; [by rewrite join3|]. split; [split|].
  - intros E. destruct p as [|pc p]; [|by left]. right.
    destruct (blank d) eqn:Hd; [by left|].
    destruct (blank t) eqn:Ht; [by right|]. exfalso.
    destruct (join_all_double_space d t Hd Ht) as [E2 E1].
    rewrite E2, E1 in E. apply app_inv_head in E.
    apply (f_equal length) in E. simpl in E. lia.
  - apply join_all_nonempty.
  - intros -> Hd Ht. by destruct (join_all_double_space d t Hd Ht).
Qed.

(** C2, as stated, fails: with an empty prescription between a diagnosis and
    a treatment the text has two consecutive spaces. *)
Lemma request_text_double_space :
  let request := {| diagnosis := Some (py "flu"); prescription := Some [];
                    treatment := Some (py "rest") |} in
  request_text request = py "flu  rest"
  /\ spec_request_text request = py "flu rest"
  /\ request_text request <> spec_request_text request.
Proof. vm_compute. repeat split; done. Qed.

(** ** Requests without text *)

Lemma request_text_blank (request : AnalyzeRequest) :
  blank (default [] (diagnosis request)) = true ->
  blank (default [] (prescription request)) = true ->
  blank (default [] (treatment request)) = true ->
  request_text request = [].
Proof.
  intros Hd Hp Ht. unfold request_text. rewrite !or_empty_default, join3.
  apply strip_blank. by rewrite !blank_app, Hd, Hp, Ht.
Qed.

Section AnalyzeFacts.

Variable lower : pystr -> pystr.
Variable str_exc : PyExc -> pystr.
Variable nlp : pystr -> PyExc + list Ent.
Variable ICD11_DICT : gmap pystr TaxonomyEntry.

(** A request without text: the 400 raised in the [try] is caught by its
    [except Exception] and leaves as a 500; the extractor is not called. *)
Lemma analyze_no_text request calls :
  request_text request = [] ->
  analyze lower str_exc nlp ICD11_DICT request calls
  = (inl (HTTPException 500
            (str_exc (HTTPException 400 (py "No text provided.")))), calls).
Proof.
  intros H. unfold analyze, try_except, analyze_body. rewrite H. reflexivity.
Qed.

(** A request with text whose extraction succeeds. *)
Lemma analyze_text request calls ents :
  request_text request <> [] ->
  nlp (request_text request) = inr ents ->
  analyze lower str_exc nlp ICD11_DICT request calls
  = (inr (aggregate lower ICD11_DICT ents), calls ++ [request_text request]).
Proof.
  intros H E. unfold analyze, try_except, analyze_body.
  destruct (request_text request) eqn:T; [done|].
  unfold mbind, M_bind, call_nlp, raise, mret, M_ret. simpl.
  rewrite E. reflexivity.
Qed.

(** A request with text whose extraction raises. *)
Lemma analyze_nlp_raises request calls e :
  request_text request <> [] ->
  nlp (request_text request) = inl e ->
  analyze lower str_exc nlp ICD11_DICT request calls
  = (inl (HTTPException 500 (str_exc e)), calls ++ [request_text request]).
Proof.
  intros H E. unfold analyze, try_except, analyze_body.
  destruct (request_text request) eqn:T; [done|].
  unfold mbind, M_bind, call_nlp, raise, mret, M_ret. simpl.
  rewrite E. reflexivity.
Qed.

(** What [analyze] returns, it returns from [aggregate]. *)
Lemma analyze_inr request calls r calls' :
  analyze lower str_exc nlp ICD11_DICT request calls = (inr r, calls') ->
  exists ents, nlp (request_text request) = inr ents
               /\ r = aggregate lower ICD11_DICT ents.
Proof.
  intros H. destruct (request_text request) eqn:T.
  - rewrite analyze_no_text in H by done. discriminate.
  - destruct (nlp (request_text request)) as [e|ents] eqn:E.
    + rewrite (analyze_nlp_raises _ _ e) in H; [discriminate | by rewrite T | done].
    + rewrite (analyze_text _ _ ents) in H; [| by rewrite T | done].
      exists ents. rewrite <- T. split; [done|]. congruence.
Qed.

(** C1: at the request whose three fields are empty, the code raises
    [HTTPException] with status 500, the status of an internal failure, and
    not the 400 of an invalid input; the extractor is not called. *)
Theorem analyze_empty_request_status (calls : list pystr) :
  analyze lower str_exc nlp ICD11_DICT
    {| diagnosis := Some []; prescription := Some []; treatment := Some [] |}
    calls
  = (inl (HTTPException 500
            (str_exc (HTTPException 400 (py "No text provided.")))), calls).
Proof. by apply analyze_no_text. Qed.

End AnalyzeFacts.

(** ** The converter *)

Lemma truthy_true (s : pystr) : truthy s = true <-> s <> [].
Proof. by destruct s. Qed.

Lemma row_accepted_iff row :
  row_accepted row = true
  <-> row_class_kind row = py "category"
      /\ row_code row <> [] /\ row_title row <> [].
Proof.
  unfold row_accepted.
  rewrite !andb_true_iff, !truthy_true, bool_decide_eq_true. tauto.
Qed.

Section ConverterFacts.

Variable lower : pystr -> pystr.

Lemma convert_row_accepted d row :
  row_accepted row = true ->
  convert_row lower d row = <[ lower (row_title row) := row_entry row ]> d.
Proof. unfold convert_row, row_accepted. by intros ->. Qed.

Lemma convert_row_rejected d row :
  row_accepted row = false -> convert_row lower d row = d.
Proof. unfold convert_row, row_accepted. by intros ->. Qed.

Lemma convert_snoc rows row :
  convert lower (rows ++ [row]) = convert_row lower (convert lower rows) row.
Proof. unfold convert. apply foldl_snoc. Qed.

(** A key the later rows do not produce keeps its value through them. *)
Lemma foldl_convert_row_other d post k :
  (forall r, r ∈ post -> row_accepted r = true -> lower (row_title r) <> k) ->
  foldl (convert_row lower) d post !! k = d !! k.
Proof.
  revert d. induction post as [|r post IH]; intros d H; simpl; [done|].
  rewrite IH by (intros r' Hr'; apply H; by right).
  destruct (row_accepted r) eqn:A.
  - rewrite convert_row_accepted by done.
    apply lookup_insert_ne, H; [left | done].
  - by rewrite convert_row_rejected.
Qed.

(** A key, once in, stays in. *)
Lemma foldl_convert_row_is_Some d post k :
  is_Some (d !! k) -> is_Some (foldl (convert_row lower) d post !! k).
Proof.
  revert d. induction post as [|r post IH]; intros d H; simpl; [done|].
  apply IH. destruct (row_accepted r) eqn:A.
  - rewrite convert_row_accepted by done.
    rewrite lookup_insert. case_decide; [by eexists | done].
  - by rewrite convert_row_rejected.
Qed.

Lemma convert_split pre row post :
  convert lower (pre ++ row :: post)
  = foldl (convert_row lower) (convert_row lower (convert lower pre) row) post.
Proof. unfold convert. by rewrite foldl_app. Qed.

Lemma convert_accepted_is_Some rows row :
  row ∈ rows -> row_accepted row = true ->
  is_Some (convert lower rows !! lower (row_title row)).
Proof.
  intros (pre & post & ->)%list_elem_of_split A. rewrite convert_split.
  apply foldl_convert_row_is_Some. rewrite convert_row_accepted by done.
  rewrite lookup_insert_eq. by eexists.
Qed.

(** Every entry of the table is the entry of the last accepted row with
    its key. *)
Lemma convert_lookup_Some rows k e :
  convert lower rows !! k = Some e ->
  exists pre row post,
    rows = pre ++ row :: post /\ row_accepted row = true
    /\ lower (row_title row) = k /\ e = row_entry row
    /\ forall r, r ∈ post -> row_accepted r = true -> lower (row_title r) <> k.
Proof.
  revert e. induction rows as [|r rows IH] using rev_ind; intros e.
  - unfold convert. simpl. by rewrite lookup_empty.
  - rewrite convert_snoc. destruct (row_accepted r) eqn:A.
    + rewrite convert_row_accepted by done. rewrite lookup_insert.
      case_decide as E.
      * intros [=]; subst e. exists rows, r, []. repeat split; try done.
        by intros r' ?%elem_of_nil.
      * intros (pre & row & post & -> & A' & K & -> & L)%IH.
        exists pre, row, (post ++ [r]). rewrite <- app_assoc. repeat split; try done.
        intros r' [? | ->%list_elem_of_singleton]%elem_of_app ?; [by apply L | done].
    + rewrite convert_row_rejected by done.
      intros (pre & row & post & -> & A' & K & -> & L)%IH.
      exists pre, row, (post ++ [r]). rewrite <- app_assoc. repeat split; try done.
      intros r' [? | ->%list_elem_of_singleton]%elem_of_app ?; [by apply L | congruence].
Qed.

Lemma convert_last_row pre row post :
  row_accepted row = true ->
  (forall r, r ∈ post -> row_accepted r = true ->
             lower (row_title r) <> lower (row_title row)) ->
  convert lower (pre ++ row :: post) !! lower (row_title row)
  = Some (row_entry row).
Proof.
  intros A L. rewrite convert_split, foldl_convert_row_other by done.
  rewrite convert_row_accepted by done. apply lookup_insert_eq.
Qed.

(** C7: when rows collide on a key the later one overwrites the earlier: the
    table holds at a key the entry of the last accepted row with that key,
    and holds nothing at a key no accepted row has.  The build is a total
    function: it raises nothing. *)
Theorem convert_last_write_wins (rows : list Row) (k : pystr) (e : TaxonomyEntry) :
  convert lower rows !! k = Some e
  <-> exists pre row post,
        rows = pre ++ row :: post /\ row_accepted row = true
        /\ lower (row_title row) = k
        /\ e = {| code := row_code row; desc := row_title row |}
        /\ forall r, r ∈ post -> row_accepted r = true ->
                     lower (row_title r) <> k.
Proof.
  split; [apply convert_lookup_Some|].
  intros (pre & row & post & -> & A & <- & -> & L). by apply convert_last_row.
Qed.

(** C4 (amended): a row gives an entry if and only if its trimmed ClassKind
    is "category" and its trimmed Code and cleaned Title are not empty; the
    key is the lower-cased cleaned title and the value holds the trimmed
    code and the cleaned title; no entry of a built table has an empty code
    or description, and every key is its description lower-cased. *)
Theorem convert_row_entry (d : gmap pystr TaxonomyEntry) (row : Row) :
  let code_ := strip (default [] (Code row)) in
  let title := clean_title (default [] (Title row)) in
  let class_kind := strip (default [] (ClassKind row)) in
  (class_kind = py "category" /\ code_ <> [] /\ title <> [] ->
   convert_row lower d row = <[ lower title := {| code := code_; desc := title |} ]> d)
  /\ (~ (class_kind = py "category" /\ code_ <> [] /\ title <> []) ->
      convert_row lower d row = d)
  /\ (forall rows k e, convert lower rows !! k = Some e ->
        code e <> [] /\ desc e <> [] /\ k = lower (desc e)).
Proof.
  intros code_ title class_kind.
  pose proof (row_accepted_iff row) as I.
  change (row_class_kind row) with class_kind in I.
  change (row_code row) with code_ in I.
  change (row_title row) with title in I.
  split; [|split].
  - intros H. by apply convert_row_accepted, I.
  - intros H. apply convert_row_rejected.
    destruct (row_accepted row); [|done]. exfalso. by apply H, I.
  - intros rows k e (pre & r & post & -> & A & <- & -> & _)%convert_lookup_Some.
    apply row_accepted_iff in A as (_ & Hc & Ht). by simpl.
Qed.

End ConverterFacts.

Lemma convert_last_write_wins_witness :
  convert ascii_lower cholera_rows !! py "cholera"
  = Some {| code := py "1A0Z"; desc := py "cholera" |}.
Proof.
  apply (convert_last_write_wins ascii_lower cholera_rows).
  exists [ {| Code := Some (py "1A00"); Title := Some (py "Cholera");
              ClassKind := Some (py "category") |} ],
         {| Code := Some (py "1A0Z"); Title := Some (py "cholera");
            ClassKind := Some (py "category") |}, [].
  split; [reflexivity|]. split; [reflexivity|]. split; [reflexivity|].
  split; [reflexivity|]. intros r Hr. by apply elem_of_nil in Hr.
Defined.

Lemma convert_row_entry_witness :
  convert_row ascii_lower ∅ cholera_row
  = <[ py "type1 cholera" := {| code := py "1A00"; desc := py "Type1 Cholera" |} ]> ∅.
Proof.
  destruct (convert_row_entry ascii_lower ∅ cholera_row) as [H _].
  apply H. by vm_compute.
Defined.

Example convert_cholera_row :
  convert ascii_lower [cholera_row]
  = {[ py "type1 cholera" := {| code := py "1A00"; desc := py "Type1 Cholera" |} ]}.
Proof. vm_compute. reflexivity. Qed.

(** Two rows with one key: the second is the one the table keeps. *)
Example convert_cholera_rows :
  convert ascii_lower cholera_rows
  = {[ py "cholera" := {| code := py "1A0Z"; desc := py "cholera" |} ]}.
Proof. vm_compute. reflexivity. Qed.

(** C4, as stated, fails: a ClassKind that is "category" only after trimming
    is accepted. *)
Lemma convert_row_padded_class_kind :
  default [] (ClassKind padded_kind_row) <> py "category"
  /\ spec_row_accepted padded_kind_row = false
  /\ convert_row ascii_lower ∅ padded_kind_row !! py "cholera"
     = Some {| code := py "1A00"; desc := py "Cholera" |}.
Proof. vm_compute. repeat split; done. Qed.

(** ** Resolution of one entity *)

Lemma float_zero_not_one : 0%float <> 1%float.
Proof.
  intros H.
  assert (E : PrimFloat.eqb 0 0 = PrimFloat.eqb 1 0) by (by rewrite <- H).
  vm_compute in E. discriminate.
Qed.

Section ResolveFacts.

Variable lower : pystr -> pystr.
Variable ICD11_DICT : gmap pystr TaxonomyEntry.

Lemma resolve_found ent info :
  ICD11_DICT !! lower (strip (text ent)) = Some info ->
  resolve lower ICD11_DICT ent
  = {| EntityResult.text := text ent;
       EntityResult.label := label_ ent;
       EntityResult.icd_code := Some (code info);
       EntityResult.icd_description := Some (desc info);
       EntityResult.confidence := 1%float |}.
Proof. intros H. unfold resolve. by rewrite H. Qed.

Lemma resolve_not_found ent :
  ICD11_DICT !! lower (strip (text ent)) = None ->
  resolve lower ICD11_DICT ent
  = {| EntityResult.text := text ent;
       EntityResult.label := label_ ent;
       EntityResult.icd_code := None;
       EntityResult.icd_description := None;
       EntityResult.confidence := 0%float |}.
Proof. intros H. unfold resolve. by rewrite H. Qed.

(** An entity with a code is a hit. *)
Lemma resolve_icd_code_Some ent c :
  EntityResult.icd_code (resolve lower ICD11_DICT ent) = Some c ->
  EntityResult.confidence (resolve lower ICD11_DICT ent) = 1%float.
Proof.
  destruct (ICD11_DICT !! lower (strip (text ent))) as [info|] eqn:E.
  - by rewrite (resolve_found _ info).
  - by rewrite resolve_not_found.
Qed.

(** The loop leaves in [entities] the resolution of each entity, in order,
    whatever the codes seen before. *)
Lemma loop_body_entities st ent :
  st_entities (loop_body lower ICD11_DICT st ent)
  = st_entities st ++ [resolve lower ICD11_DICT ent].
Proof.
  unfold loop_body.
  destruct (EntityResult.icd_code (resolve lower ICD11_DICT ent)) as [c|]; [|done].
  by destruct (truthy c && bool_decide (c ∉ seen_codes st)).
Qed.

Lemma loop_entities st ents :
  st_entities (loop lower ICD11_DICT st ents)
  = st_entities st ++ (resolve lower ICD11_DICT <$> ents).
Proof.
  revert st. induction ents as [|e ents IH]; intros st; simpl.
  - by rewrite app_nil_r.
  - unfold loop in *. simpl. rewrite IH, loop_body_entities.
    by rewrite <- app_assoc.
Qed.

Lemma aggregate_entities ents :
  entities (aggregate lower ICD11_DICT ents) = resolve lower ICD11_DICT <$> ents.
Proof. unfold aggregate. simpl. by rewrite loop_entities. Qed.

(** C9: an entity is resolved to the same result wherever it stands, in one
    document or in two, against the same table: the result depends on the
    entity and the table only. *)
Theorem resolve_same_entity_same_result
    (ents1 ents2 : list Ent) (i j : nat) (ent : Ent) :
  ents1 !! i = Some ent -> ents2 !! j = Some ent ->
  entities (aggregate lower ICD11_DICT ents1) !! i
  = Some (resolve lower ICD11_DICT ent)
  /\ entities (aggregate lower ICD11_DICT ents2) !! j
     = entities (aggregate lower ICD11_DICT ents1) !! i.
Proof.
  intros H1 H2. rewrite !aggregate_entities, !list_lookup_fmap, H1, H2. done.
Qed.

End ResolveFacts.

Lemma resolve_same_entity_same_result_witness :
  let e := {| text := py "Fracture"; label_ := py "DISEASE" |} in
  entities (aggregate ascii_lower fracture_table fracture_ents) !! 1%nat
  = Some (resolve ascii_lower fracture_table e)
  /\ entities (aggregate ascii_lower fracture_table [e]) !! 0%nat
     = entities (aggregate ascii_lower fracture_table fracture_ents) !! 1%nat.
Proof.
  apply (resolve_same_entity_same_result
           ascii_lower fracture_table fracture_ents
           [{| text := py "Fracture"; label_ := py "DISEASE" |}] 1 0);
    reflexivity.
Defined.

(** ** Resolution over the loaded mapping *)

Lemma entry_val_truthy e : truthy_val (entry_val e) = true.
Proof.
  unfold entry_val, truthy_val.
  rewrite map_size_insert, lookup_singleton_ne by done.
  by rewrite map_size_singleton.
Qed.

Lemma entry_val_code e : info_code (entry_val e) = PyStr (code e).
Proof. unfold entry_val, info_code, dict_get. by rewrite lookup_insert_eq. Qed.

Lemma entry_val_desc e : info_description (entry_val e) = PyStr (desc e).
Proof.
  unfold entry_val, info_description, dict_get.
  rewrite lookup_insert_ne by done. by rewrite lookup_singleton_eq.
Qed.

Section LoadedFacts.

Variable lower : pystr -> pystr.

Lemma resolve_loaded_miss (d : gmap pystr PyVal) (ent : Ent) :
  truthy_val (dict_get d (lower (strip (text ent)))) = false ->
  resolve_loaded lower (PyDict d) ent
  = inr {| EntityDict.text := text ent;
           EntityDict.label := label_ ent;
           EntityDict.icd_code := PyNone;
           EntityDict.icd_description := PyNone;
           EntityDict.confidence := 0%float |}.
Proof. intros T. unfold resolve_loaded. by rewrite T. Qed.

Lemma resolve_loaded_hit (d : gmap pystr PyVal) (ent : Ent) (v : PyVal) :
  d !! lower (strip (text ent)) = Some v -> truthy_val v = true ->
  resolve_loaded lower (PyDict d) ent
  = if truthy_val (info_code v) && unhashable (info_code v)
    then inl (Exception (py "TypeError"))
    else inr {| EntityDict.text := text ent;
                EntityDict.label := label_ ent;
                EntityDict.icd_code := info_code v;
                EntityDict.icd_description := info_description v;
                EntityDict.confidence := 1%float |}.
Proof.
  intros E T. unfold resolve_loaded, dict_get. rewrite E.
  cbn [default from_option id]. by rewrite T.
Qed.

(** On a table of entries the loop does what [resolve] says: there every
    found value is a dict with the two keys, which is true and passes
    [isinstance(icd_info, dict)], and its code is a string. *)
Lemma resolve_loaded_table (tbl : gmap pystr TaxonomyEntry) (ent : Ent) :
  resolve_loaded lower (table_val tbl) ent
  = inr (entity_val (resolve lower tbl ent)).
Proof.
  unfold table_val.
  destruct (tbl !! lower (strip (text ent))) as [e|] eqn:E.
  - rewrite (resolve_loaded_hit _ _ (entry_val e));
      [| by rewrite lookup_fmap, E | apply entry_val_truthy].
    rewrite entry_val_code, entry_val_desc, andb_false_r.
    by rewrite (resolve_found _ _ _ e).
  - rewrite resolve_loaded_miss, resolve_not_found; [done | done |].
    unfold dict_get. by rewrite lookup_fmap, E.
Qed.


End LoadedFacts.


(** A value that is a list is taken as the code, and cannot be hashed. *)
Example resolve_loaded_list_code :
  resolve_loaded ascii_lower (PyDict list_code_mapping)
    {| text := py "fever"; label_ := py "SYMPTOM" |}
  = inl (Exception (py "TypeError")).
Proof. vm_compute. reflexivity. Qed.

(** A mapping that is a list has no [get]. *)
Example resolve_loaded_list_mapping :
  resolve_loaded ascii_lower (PyList [])
    {| text := py "fever"; label_ := py "SYMPTOM" |}
  = inl (Exception (py "AttributeError")).
Proof. reflexivity. Qed.


(** ** The loop of [analyze] *)

Section LoopFacts.

Variable lower : pystr -> pystr.
Variable ICD11_DICT : gmap pystr TaxonomyEntry.

Lemma first_with_code_snoc ents e cr :
  first_with_code lower ICD11_DICT ents cr ->
  first_with_code lower ICD11_DICT (ents ++ [e]) cr.
Proof.
  intros (pre & ent & post & c & -> & H).
  exists pre, ent, (post ++ [e]), c. by rewrite <- app_assoc.
Qed.

Lemma loop_inv_init : loop_inv lower ICD11_DICT [] init_state.
Proof.
  split; simpl; try done.
  - intros c. split; [by intros ?%not_elem_of_empty | by intros ?%elem_of_nil].
  - constructor.
  - by intros cr ?%elem_of_nil.
  - by intros e c ?%elem_of_nil.
Qed.

(** An entity that adds no code: its code is null, empty or seen. *)
Lemma loop_inv_keep ents st e :
  loop_inv lower ICD11_DICT ents st ->
  (forall c, EntityResult.icd_code (resolve lower ICD11_DICT e) = Some c ->
             c <> [] -> c ∈ seen_codes st) ->
  loop_inv lower ICD11_DICT (ents ++ [e])
    {| st_entities := st_entities st ++ [resolve lower ICD11_DICT e];
       st_icd_codes := st_icd_codes st;
       seen_codes := seen_codes st |}.
Proof.
  intros [He Hs Hn Hf Ha] Hseen. split; simpl; try done.
  - by rewrite He, fmap_app.
  - intros cr Hcr. by apply first_with_code_snoc, Hf.
  - intros e' c' [?| ->%list_elem_of_singleton]%elem_of_app E' N;
      [by apply (Ha e') | by apply Hseen].
Qed.

(** An entity that adds its code: it is the first with it. *)
Lemma loop_inv_add ents st e c :
  loop_inv lower ICD11_DICT ents st ->
  EntityResult.icd_code (resolve lower ICD11_DICT e) = Some c ->
  c <> [] -> c ∉ seen_codes st ->
  loop_inv lower ICD11_DICT (ents ++ [e])
    {| st_entities := st_entities st ++ [resolve lower ICD11_DICT e];
       st_icd_codes := st_icd_codes st ++ [code_result lower ICD11_DICT e c];
       seen_codes := seen_codes st ∪ {[ c ]} |}.
Proof.
  intros [He Hs Hn Hf Ha] Ec Hc Hin. split; simpl.
  - by rewrite He, fmap_app.
  - intros c'. rewrite fmap_app, elem_of_app, elem_of_union, Hs. simpl.
    rewrite elem_of_singleton, list_elem_of_singleton.
    split; (intros [?|E]; [by left | right; congruence]).
  - rewrite fmap_app. simpl. apply NoDup_app. split; [done|]. split.
    + intros x Hx ->%list_elem_of_singleton. by apply Hin, Hs.
    + apply NoDup_singleton.
  - intros cr [Hcr| ->%list_elem_of_singleton]%elem_of_app.
    + by apply first_with_code_snoc, Hf.
    + exists ents, e, [], c. repeat split; try done.
      intros e' He' E'. by apply Hin, (Ha e').
  - intros e' c' [?| ->%list_elem_of_singleton]%elem_of_app E' N;
      apply elem_of_union.
    + left. by apply (Ha e').
    + right. apply elem_of_singleton. congruence.
Qed.

Lemma loop_inv_step ents st e :
  loop_inv lower ICD11_DICT ents st ->
  loop_inv lower ICD11_DICT (ents ++ [e]) (loop_body lower ICD11_DICT st e).
Proof.
  intros H. unfold loop_body.
  destruct (EntityResult.icd_code (resolve lower ICD11_DICT e)) as [c|] eqn:Ec.
  - destruct (truthy c && bool_decide (c ∉ seen_codes st)) eqn:T.
    + apply andb_prop in T as [T1%truthy_true T2%bool_decide_eq_true].
      by apply (loop_inv_add ents st e c).
    + apply (loop_inv_keep ents st e); [done|].
      intros c' E Hc. rewrite Ec in E. injection E as <-.
      apply andb_false_iff in T as [T|T].
      * apply truthy_true in Hc. congruence.
      * apply bool_decide_eq_false in T. by apply dec_stable.
  - apply (loop_inv_keep ents st e); [done|]. intros c E. congruence.
Qed.

Lemma loop_inv_loop ents st more :
  loop_inv lower ICD11_DICT ents st ->
  loop_inv lower ICD11_DICT (ents ++ more) (loop lower ICD11_DICT st more).
Proof.
  revert ents st. induction more as [|e more IH]; intros ents st H; simpl.
  - by rewrite app_nil_r.
  - unfold loop in *. simpl.
    replace (ents ++ e :: more) with ((ents ++ [e]) ++ more)
      by (by rewrite <- app_assoc).
    by apply IH, loop_inv_step.
Qed.

Lemma loop_inv_aggregate ents :
  loop_inv lower ICD11_DICT ents (loop lower ICD11_DICT init_state ents).
Proof. apply (loop_inv_loop [] init_state ents), loop_inv_init. Qed.

End LoopFacts.

(** ** The two lists of a response *)

Section ResponseFacts.

Variable lower : pystr -> pystr.
Variable ICD11_DICT : gmap pystr TaxonomyEntry.

(** The first element of a list with a property is at one place only. *)
Lemma first_split_unique {A} (P : A -> Prop) (pre pre' post post' : list A) x x' :
  pre ++ x :: post = pre' ++ x' :: post' ->
  P x -> P x' ->
  (forall y, y ∈ pre -> ~ P y) -> (forall y, y ∈ pre' -> ~ P y) ->
  pre = pre' /\ x = x' /\ post = post'.
Proof.
  revert pre'. induction pre as [|a pre IH]; intros [|a' pre'] E Hx Hx' Hp Hp';
    simpl in E.
  - by injection E as -> ->.
  - injection E as -> _. destruct (Hp' a'); [left | done].
  - injection E as -> _. destruct (Hp x'); [left | done].
  - injection E as -> E.
    destruct (IH pre' E) as (-> & -> & ->); try done.
    + intros y Hy. apply Hp. by right.
    + intros y Hy. apply Hp'. by right.
Qed.

(** C6: no two elements of [icd_codes] have the same code; each element was
    made at the first entity, in extraction order, that resolves to its code,
    with that entity's text as it was extracted; and the first entity that
    resolves to a code, not empty, has its element in [icd_codes], the only
    one with that code. *)
Theorem icd_codes_first_occurrence (ents : list Ent) :
  let r := aggregate lower ICD11_DICT ents in
  NoDup (CodeResult.icd_code <$> icd_codes r)
  /\ (forall cr, cr ∈ icd_codes r ->
       exists pre ent post,
         ents = pre ++ ent :: post
         /\ CodeResult.entity cr = text ent
         /\ CodeResult.icd_code cr
            = EntityResult.icd_code (resolve lower ICD11_DICT ent)
         /\ CodeResult.icd_code cr <> None
         /\ forall e, e ∈ pre ->
              EntityResult.icd_code (resolve lower ICD11_DICT e)
              <> CodeResult.icd_code cr)
  /\ (forall pre ent post c,
        ents = pre ++ ent :: post ->
        EntityResult.icd_code (resolve lower ICD11_DICT ent) = Some c ->
        c <> [] ->
        (forall e, e ∈ pre ->
           EntityResult.icd_code (resolve lower ICD11_DICT e) <> Some c) ->
        let cr :=
          {| CodeResult.entity := text ent;
             CodeResult.icd_code := Some c;
             CodeResult.icd_description :=
               EntityResult.icd_description (resolve lower ICD11_DICT ent);
             CodeResult.confidence :=
               EntityResult.confidence (resolve lower ICD11_DICT ent) |} in
        cr ∈ icd_codes r
        /\ forall cr', cr' ∈ icd_codes r ->
             CodeResult.icd_code cr' = Some c -> cr' = cr).
Proof.
  intros r. destruct (loop_inv_aggregate lower ICD11_DICT ents) as [_ Hs Hn Hf Ha].
  split; [exact Hn|]. split.
  - intros cr Hcr.
    destruct (Hf cr Hcr) as (pre & ent & post & c & -> & Ec & Hc & -> & Hpre).
    exists pre, ent, post. simpl. rewrite Ec. repeat split; try done.
  - intros pre ent post c E Ec Hc Hpre cr.
    assert (U : forall cr', cr' ∈ icd_codes r ->
                  CodeResult.icd_code cr' = Some c -> cr' = cr).
    { intros cr' Hcr' Ecr'.
      destruct (Hf cr' Hcr')
        as (pre' & ent' & post' & c' & E' & Ec' & _ & -> & Hpre').
      simpl in Ecr'. injection Ecr' as ->. rewrite E in E'.
      destruct (first_split_unique
                  (fun e => EntityResult.icd_code (resolve lower ICD11_DICT e)
                            = Some c)
                  pre pre' post post' ent ent' E') as (_ & <- & _); done. }
    split; [|exact U].
    assert (Hin : ent ∈ ents).
    { rewrite E. apply elem_of_app. right. left. }
    apply (Ha ent c Hin Ec), Hs, list_elem_of_fmap in Hc as (cr0 & E0 & Hcr0).
    by rewrite <- (U cr0 Hcr0).
Qed.

(** Every code of an entity that is not empty has its element. *)
Lemma icd_codes_complete (ents : list Ent) (ent : Ent) (c : pystr) :
  ent ∈ ents ->
  EntityResult.icd_code (resolve lower ICD11_DICT ent) = Some c -> c <> [] ->
  exists cr, cr ∈ icd_codes (aggregate lower ICD11_DICT ents)
             /\ CodeResult.icd_code cr = Some c.
Proof.
  intros Hin Ec Hc.
  destruct (loop_inv_aggregate lower ICD11_DICT ents) as [_ Hs _ _ Ha].
  apply (Ha ent c Hin Ec), Hs, list_elem_of_fmap in Hc as (cr & E & Hcr).
  by exists cr.
Qed.

(** The scenario of the two spellings of one fracture. *)
Example aggregate_fracture :
  aggregate ascii_lower fracture_table fracture_ents =
  {| entities :=
       [ {| EntityResult.text := py "fracture"; EntityResult.label := py "DISEASE";
            EntityResult.icd_code := Some (py "FA01");
            EntityResult.icd_description := Some (py "Fracture");
            EntityResult.confidence := 1%float |};
         {| EntityResult.text := py "Fracture"; EntityResult.label := py "DISEASE";
            EntityResult.icd_code := Some (py "FA01");
            EntityResult.icd_description := Some (py "Fracture");
            EntityResult.confidence := 1%float |} ];
     icd_codes :=
       [ {| CodeResult.entity := py "fracture";
            CodeResult.icd_code := Some (py "FA01");
            CodeResult.icd_description := Some (py "Fracture");
            CodeResult.confidence := 1%float |} ] |}.
Proof. vm_compute. reflexivity. Qed.

(** C10 (amended): each element of [icd_codes] has confidence 1.0 and a code
    that is neither null nor empty, and the codes of [icd_codes] are the
    codes of [entities] that are neither null nor empty. *)
Theorem icd_codes_are_entity_codes (ents : list Ent) :
  let r := aggregate lower ICD11_DICT ents in
  (forall cr, cr ∈ icd_codes r ->
     CodeResult.confidence cr = 1%float
     /\ exists c, CodeResult.icd_code cr = Some c /\ c <> [])
  /\ forall c, Some c ∈ (CodeResult.icd_code <$> icd_codes r)
       <-> c <> [] /\ Some c ∈ (EntityResult.icd_code <$> entities r).
Proof.
  intros r. subst r. rewrite aggregate_entities.
  destruct (loop_inv_aggregate lower ICD11_DICT ents) as [_ Hs _ Hf Ha].
  split.
  - intros cr Hcr.
    destruct (Hf cr Hcr) as (pre & ent & post & c & -> & Ec & Hc & -> & _).
    simpl. split; [by apply (resolve_icd_code_Some _ _ _ c) | by exists c].
  - intros c. split.
    + intros (cr & E & Hcr)%list_elem_of_fmap.
      destruct (Hf cr Hcr) as (pre & ent & post & c' & -> & Ec & Hc & -> & _).
      simpl in E. injection E as ->. split; [done|].
      apply list_elem_of_fmap. exists (resolve lower ICD11_DICT ent).
      split; [done|]. apply list_elem_of_fmap. exists ent. split; [done|].
      apply elem_of_app. right. by left.
    + intros [Hc (er & E & (ent & -> & Hent)%list_elem_of_fmap)%list_elem_of_fmap].
      apply Hs. by apply (Ha ent).
Qed.

End ResponseFacts.

Lemma icd_codes_first_occurrence_witness :
  let r := aggregate ascii_lower fracture_table fracture_ents in
  let cr := {| CodeResult.entity := py "fracture";
               CodeResult.icd_code := Some (py "FA01");
               CodeResult.icd_description := Some (py "Fracture");
               CodeResult.confidence := 1%float |} in
  cr ∈ icd_codes r
  /\ forall cr', cr' ∈ icd_codes r ->
       CodeResult.icd_code cr' = Some (py "FA01") -> cr' = cr.
Proof.
  destruct (icd_codes_first_occurrence ascii_lower fracture_table fracture_ents)
    as (_ & _ & H).
  apply (H [] {| text := py "fracture"; label_ := py "DISEASE" |}
           [{| text := py "Fracture"; label_ := py "DISEASE" |}] (py "FA01")).
  - reflexivity.
  - reflexivity.
  - done.
  - by intros e ?%elem_of_nil.
Defined.

(** C10, as stated, fails: an entry whose code is the empty string gives an
    entity a code that is not null and gives [icd_codes] nothing. *)
Lemma icd_codes_miss_empty_code :
  let r := aggregate ascii_lower empty_code_table fever_ents in
  EntityResult.icd_code <$> entities r = [Some []]
  /\ icd_codes r = []
  /\ ~ (forall c, Some c ∈ (CodeResult.icd_code <$> icd_codes r)
          <-> Some c ∈ (EntityResult.icd_code <$> entities r)).
Proof.
  vm_compute. split; [done|]. split; [done|].
  intros H. destruct (H []) as [_ H']. eapply elem_of_nil, H'. left.
Qed.

(** ** An empty table *)

Lemma loop_empty_table lower st ents :
  loop lower ∅ st ents
  = {| st_entities := st_entities st ++ (unmatched <$> ents);
       st_icd_codes := st_icd_codes st;
       seen_codes := seen_codes st |}.
Proof.
  revert st. induction ents as [|e ents IH]; intros st; simpl.
  - rewrite app_nil_r. by destruct st.
  - unfold loop in *. simpl. rewrite IH. unfold loop_body, resolve.
    rewrite lookup_empty. simpl. by rewrite <- app_assoc.
Qed.

Lemma aggregate_empty_table lower ents :
  aggregate lower ∅ ents = {| entities := unmatched <$> ents; icd_codes := [] |}.
Proof. unfold aggregate. by rewrite loop_empty_table. Qed.

(** C8: when the mapping fails to load the process starts all the same, with
    an empty table; under it a request with text is served, every entity of
    a response has a null code and confidence 0.0, and [icd_codes] is
    empty. *)
Theorem startup_mapping_failure
    (lower : pystr -> pystr) (str_exc : PyExc -> pystr)
    (nlp : pystr -> PyExc + list Ent) (e : PyExc) :
  let svc := {| svc_nlp := nlp; svc_ICD11_DICT := ∅ |} in
  startup (inr nlp) (inl e) = inr svc
  /\ (forall request calls ents,
        request_text request <> [] -> nlp (request_text request) = inr ents ->
        serve lower str_exc svc request calls
        = (inr {| entities := unmatched <$> ents; icd_codes := [] |},
           calls ++ [request_text request]))
  /\ (forall request calls r calls',
        serve lower str_exc svc request calls = (inr r, calls') ->
        icd_codes r = []
        /\ forall er, er ∈ entities r ->
             EntityResult.icd_code er = None
             /\ EntityResult.confidence er = 0%float).
Proof.
  intros svc. split; [done|]. unfold serve. simpl. split.
  - intros request calls ents T E.
    by rewrite (analyze_text _ _ _ _ _ _ ents), aggregate_empty_table.
  - intros request calls r calls' (ents & _ & ->)%analyze_inr.
    rewrite aggregate_empty_table. simpl. split; [done|].
    by intros er (ent & -> & _)%list_elem_of_fmap.
Qed.

Lemma startup_mapping_failure_witness :
  let request := {| diagnosis := Some (py "fever"); prescription := None;
                    treatment := None |} in
  let svc := {| svc_nlp := fever_nlp; svc_ICD11_DICT := ∅ |} in
  startup (inr fever_nlp) (inl (Exception (py "No such file"))) = inr svc
  /\ serve ascii_lower (fun _ => []) svc request []
     = (inr {| entities := unmatched <$> fever_ents; icd_codes := [] |},
        [py "fever"]).
Proof.
  destruct (startup_mapping_failure ascii_lower (fun _ => []) fever_nlp
              (Exception (py "No such file"))) as (S & A & _).
  split; [exact S|].
  apply (A {| diagnosis := Some (py "fever"); prescription := None;
              treatment := None |} [] fever_ents); [by vm_compute | reflexivity].
Defined.

(** ** The two normalizations *)

Lemma remove_hyphens_id (s : pystr) : hyphen ∉ s -> remove_hyphens s = s.
Proof.
  unfold remove_hyphens. induction s as [|c s IH]; intros H; [done|].
  rewrite filter_cons_True.
  - f_equal. apply IH. intros ?. apply H. by right.
  - apply N.eqb_neq. intros ->. apply H. left.
Qed.

(** A title without hyphen whose trimmed text neither starts nor ends with a
    double quote is cleaned by trimming alone. *)
Lemma clean_title_plain (t : pystr) :
  hyphen ∉ t -> head (strip t) <> Some quote -> last (strip t) <> Some quote ->
  clean_title t = strip t.
Proof.
  intros Hh Hq1 Hq2. unfold clean_title.
  assert (Q : strip_quotes (strip t) = strip t).
  { apply strip_by_id; intros c Hc; apply N.eqb_neq; congruence. }
  rewrite Q, remove_hyphens_id, strip_idemp; [done|].
  intros H. by apply Hh, (elem_of_strip_by isspace).
Qed.

Section NormalizationFacts.

Variable lower : pystr -> pystr.

(** C3 (amended): for a row the converter accepts whose raw Title has no
    hyphen and, once trimmed, neither starts nor ends with a double quote,
    the resolver's normalization of the raw Title is the row's key, and an
    entity with that text resolves against the built table to a hit, with
    confidence 1.0. *)
Theorem resolve_raw_title_hit (rows : list Row) (row : Row) (lbl : pystr) :
  let title := default [] (Title row) in
  row ∈ rows -> row_accepted row = true ->
  hyphen ∉ title ->
  head (strip title) <> Some quote -> last (strip title) <> Some quote ->
  let r := resolve lower (convert lower rows) {| text := title; label_ := lbl |} in
  lower (strip title) = lower (clean_title title)
  /\ is_Some (EntityResult.icd_code r)
  /\ EntityResult.confidence r = 1%float.
Proof.
  intros title Hin A Hh Hq1 Hq2 r.
  assert (K : lower (strip title) = lower (row_title row)).
  { unfold row_title, get_or_empty. fold title. by rewrite clean_title_plain. }
  split; [exact K|].
  destruct (convert_accepted_is_Some lower rows row Hin A) as [info E].
  rewrite <- K in E. subst r.
  rewrite (resolve_found _ _ {| text := title; label_ := lbl |} info) by done.
  simpl. split; [by eexists | done].
Qed.

End NormalizationFacts.

Lemma resolve_raw_title_hit_witness :
  let r := resolve ascii_lower (convert ascii_lower cholera_rows)
             {| text := py "Cholera"; label_ := py "DISEASE" |} in
  ascii_lower (strip (py "Cholera")) = ascii_lower (clean_title (py "Cholera"))
  /\ is_Some (EntityResult.icd_code r)
  /\ EntityResult.confidence r = 1%float.
Proof.
  apply (resolve_raw_title_hit ascii_lower cholera_rows
           {| Code := Some (py "1A00"); Title := Some (py "Cholera");
              ClassKind := Some (py "category") |} (py "DISEASE")).
  - left.
  - reflexivity.
  - change (hyphen ∉ py "Cholera"). apply (bool_decide_unpack _). by vm_compute.
  - by vm_compute.
  - by vm_compute.
Defined.

(** C3, as stated, fails: the row of "Type-1 diabetes" is accepted under the
    key "type1 diabetes", and an entity with the raw title as its text is
    looked up as "type-1 diabetes" and missed. *)
Lemma resolve_hyphen_title_miss :
  let r := resolve ascii_lower (convert ascii_lower [diabetes_row])
             {| text := py "Type-1 diabetes"; label_ := py "DISEASE" |} in
  row_accepted diabetes_row = true
  /\ convert ascii_lower [diabetes_row] !! py "type1 diabetes"
     = Some {| code := py "5A10"; desc := py "Type1 diabetes" |}
  /\ EntityResult.icd_code r = None
  /\ EntityResult.confidence r = 0%float
  /\ EntityResult.confidence r <> 1%float.
Proof.
  vm_compute. repeat split; done.
Qed.

(** * Further properties *)

(** ** Requests: when the extractor is called and what comes back *)

Lemma lstrip_by_nil p s : lstrip_by p s = [] -> forallb p s = true.
Proof.
  induction s as [|c s IH]; simpl; [done|].
  destruct (p c); [exact IH | done].
Qed.

Lemma strip_by_nil_iff p s : strip_by p s = [] <-> forallb p s = true.
Proof.
  split; [|apply strip_by_all].
  unfold strip_by. intros H%rstrip_by_nil. apply lstrip_by_nil.
  pose proof (lstrip_by_head p s) as Hh.
  destruct (lstrip_by p s) as [|c r]; [done|].
  simpl in H. rewrite Hh in H. done.
Qed.

(** X1: the text of a request is empty, so that [analyze] takes its
    no-text branch, exactly when each of the three fields is null, empty or
    white space only. *)
Theorem request_text_empty_iff (request : AnalyzeRequest) :
  request_text request = []
  <-> blank (default [] (diagnosis request)) = true
      /\ blank (default [] (prescription request)) = true
      /\ blank (default [] (treatment request)) = true.
Proof.
  unfold request_text. rewrite !or_empty_default, join3.
  unfold strip. rewrite strip_by_nil_iff.
  change (forallb isspace) with blank. rewrite !blank_app.
  rewrite !andb_true_iff. change (blank [space]) with true. tauto.
Qed.

Section AnalyzeOutcomes.

Variable lower : pystr -> pystr.
Variable str_exc : PyExc -> pystr.
Variable nlp : pystr -> PyExc + list Ent.
Variable ICD11_DICT : gmap pystr TaxonomyEntry.

(** X2: a request calls the extractor at most once: not at all when its
    text is empty, and otherwise once, on the trimmed text, whether the
    extractor returns or raises. *)
Theorem analyze_calls (request : AnalyzeRequest) (calls : list pystr) :
  snd (analyze lower str_exc nlp ICD11_DICT request calls)
  = if truthy (request_text request)
    then calls ++ [request_text request]
    else calls.
Proof.
  destruct (truthy (request_text request)) eqn:T.
  - apply truthy_true in T.
    destruct (nlp (request_text request)) as [e|ents] eqn:E.
    + by rewrite (analyze_nlp_raises _ _ _ _ _ _ e).
    + by rewrite (analyze_text _ _ _ _ _ _ ents).
  - rewrite analyze_no_text; [done|]. by destruct (request_text request).
Qed.

(** X3: an [HTTPException] that leaves [analyze] has status 500 and the
    text of some exception as its detail: the 400 that [analyze] raises for a
    request without text does not reach the caller. *)
Theorem analyze_http_status
    (request : AnalyzeRequest) (calls calls' : list pystr)
    (status : Z) (detail : pystr) :
  analyze lower str_exc nlp ICD11_DICT request calls
  = (inl (HTTPException status detail), calls') ->
  status = 500%Z /\ exists cause, detail = str_exc cause.
Proof.
  intros H. destruct (request_text request) as [|c t] eqn:T.
  - rewrite analyze_no_text in H by done. injection H as <- <- _.
    split; [done|]. by eexists.
  - assert (N : request_text request <> []) by (by rewrite T).
    destruct (nlp (request_text request)) as [e'|ents] eqn:E.
    + rewrite (analyze_nlp_raises _ _ _ _ _ _ e') in H by done.
      injection H as <- <- _. split; [done|]. by eexists.
    + rewrite (analyze_text _ _ _ _ _ _ ents) in H by done. discriminate.
Qed.

Lemma resolve_text ent :
  EntityResult.text (resolve lower ICD11_DICT ent) = text ent.
Proof. unfold resolve. by destruct (ICD11_DICT !! _). Qed.

Lemma resolve_label ent :
  EntityResult.label (resolve lower ICD11_DICT ent) = label_ ent.
Proof. unfold resolve. by destruct (ICD11_DICT !! _). Qed.

(** X4: a response comes only from a request with text on which the
    extractor returned; its [entities] has one element for each extracted
    entity, in the order of extraction, with the text and the label as
    extracted. *)
Theorem analyze_response_entities
    (request : AnalyzeRequest) (calls calls' : list pystr) (r : AnalyzeResponse) :
  analyze lower str_exc nlp ICD11_DICT request calls = (inr r, calls') ->
  request_text request <> []
  /\ exists ents,
       nlp (request_text request) = inr ents
       /\ length (entities r) = length ents
       /\ EntityResult.text <$> entities r = text <$> ents
       /\ EntityResult.label <$> entities r = label_ <$> ents.
Proof.
  intros H. split.
  - intros T. rewrite analyze_no_text in H by done. discriminate.
  - apply analyze_inr in H as (ents & E & ->). exists ents.
    rewrite aggregate_entities, length_fmap, <- !list_fmap_compose.
    repeat split; try done.
    + apply list_fmap_ext. intros i x _. apply resolve_text.
    + apply list_fmap_ext. intros i x _. apply resolve_label.
Qed.

End AnalyzeOutcomes.

Lemma analyze_http_status_witness :
  500%Z = 500%Z
  /\ exists cause,
       py "400: No text provided." = (fun _ : PyExc => py "400: No text provided.") cause.
Proof.
  apply (analyze_http_status ascii_lower (fun _ : PyExc => py "400: No text provided.")
           fever_nlp fracture_table
           {| diagnosis := Some (py "  "); prescription := None;
              treatment := Some [] |} [] []).
  reflexivity.
Defined.

Lemma analyze_response_entities_witness :
  let request := {| diagnosis := Some (py " fever"); prescription := None;
                    treatment := None |} in
  let r := aggregate ascii_lower fracture_table fever_ents in
  request_text request <> []
  /\ exists ents,
       fever_nlp (request_text request) = inr ents
       /\ length (entities r) = length ents
       /\ EntityResult.text <$> entities r = text <$> ents
       /\ EntityResult.label <$> entities r = label_ <$> ents.
Proof.
  apply (analyze_response_entities ascii_lower (fun _ => []) fever_nlp
           fracture_table
           {| diagnosis := Some (py " fever"); prescription := None;
              treatment := None |} [] [py "fever"]).
  reflexivity.
Defined.

(** ** Responses: what [icd_codes] holds *)

Section ResponseOrder.

Variable lower : pystr -> pystr.
Variable ICD11_DICT : gmap pystr TaxonomyEntry.

Lemma loop_icd_codes_sublist st ents :
  ((fun cr => (CodeResult.entity cr, CodeResult.icd_code cr,
               CodeResult.icd_description cr, CodeResult.confidence cr))
     <$> st_icd_codes st)
  `sublist_of`
  ((fun er => (EntityResult.text er, EntityResult.icd_code er,
               EntityResult.icd_description er, EntityResult.confidence er))
     <$> st_entities st) ->
  ((fun cr => (CodeResult.entity cr, CodeResult.icd_code cr,
               CodeResult.icd_description cr, CodeResult.confidence cr))
     <$> st_icd_codes (loop lower ICD11_DICT st ents))
  `sublist_of`
  ((fun er => (EntityResult.text er, EntityResult.icd_code er,
               EntityResult.icd_description er, EntityResult.confidence er))
     <$> st_entities (loop lower ICD11_DICT st ents)).
Proof.
  revert st. induction ents as [|e ents IH]; intros st H; [done|].
  unfold loop in *. simpl. apply IH. unfold loop_body.
  destruct (EntityResult.icd_code (resolve lower ICD11_DICT e)) as [c|] eqn:Ec.
  - destruct (truthy c && bool_decide (c ∉ seen_codes st)); simpl.
    + rewrite !fmap_app. apply sublist_app; [done|]. simpl.
      rewrite resolve_text, Ec. done.
    + rewrite fmap_app. by apply sublist_inserts_r.
  - simpl. rewrite fmap_app. by apply sublist_inserts_r.
Qed.

(** X5: [icd_codes] is [entities] with elements left out and none moved: read
    as (text, code, description, confidence), the elements of [icd_codes] are
    a subsequence of those of [entities], so codes come in the order of their
    first entity and there are no more code results than entities. *)
Theorem icd_codes_subsequence (ents : list Ent) :
  let r := aggregate lower ICD11_DICT ents in
  ((fun cr => (CodeResult.entity cr, CodeResult.icd_code cr,
               CodeResult.icd_description cr, CodeResult.confidence cr))
     <$> icd_codes r)
  `sublist_of`
  ((fun er => (EntityResult.text er, EntityResult.icd_code er,
               EntityResult.icd_description er, EntityResult.confidence er))
     <$> entities r)
  /\ length (icd_codes r) <= length ents.
Proof.
  intros r.
  assert (S := loop_icd_codes_sublist init_state ents (sublist_nil_l _)).
  split; [exact S|].
  apply sublist_length in S. rewrite !length_fmap in S.
  unfold r, aggregate in *. simpl in *.
  rewrite loop_entities in S. simpl in S. by rewrite length_fmap in S.
Qed.

(** X6: every element of [icd_codes] was made at a lookup hit: the stripped
    and lower-cased text of the element's own entity is a key of the mapping.
    An entity whose text is not a key is the entity of no element. *)
Theorem icd_codes_entity_is_key (ents : list Ent) (cr : CodeResult.t) :
  cr ∈ icd_codes (aggregate lower ICD11_DICT ents) ->
  is_Some (ICD11_DICT !! lower (strip (CodeResult.entity cr)))
  /\ exists ent, ent ∈ ents /\ text ent = CodeResult.entity cr.
Proof.
  intros Hcr.
  destruct (loop_inv_aggregate lower ICD11_DICT ents) as [_ _ _ Hf _].
  destruct (Hf cr Hcr) as (pre & ent & post & c & -> & Ec & Hc & -> & _).
  unfold code_result. simpl. split.
  - destruct (ICD11_DICT !! lower (strip (text ent))) as [info|] eqn:E;
      [by eexists|].
    rewrite resolve_not_found in Ec by done. discriminate.
  - exists ent. split; [|done]. apply elem_of_app. right. left.
Qed.

(** X7: white space around the text of an entity does not change its
    resolution: code, description and confidence are those of the entity
    without it. *)
Theorem resolve_ignores_padding (w1 t w2 lbl lbl' : pystr) :
  blank w1 = true -> blank w2 = true ->
  let padded := resolve lower ICD11_DICT {| text := w1 ++ t ++ w2; label_ := lbl |} in
  let bare := resolve lower ICD11_DICT {| text := t; label_ := lbl' |} in
  EntityResult.icd_code padded = EntityResult.icd_code bare
  /\ EntityResult.icd_description padded = EntityResult.icd_description bare
  /\ EntityResult.confidence padded = EntityResult.confidence bare.
Proof.
  intros H1 H2. unfold resolve. simpl. rewrite strip_pad by done.
  by destruct (ICD11_DICT !! lower (strip t)).
Qed.

End ResponseOrder.

Lemma icd_codes_entity_is_key_witness :
  is_Some (fracture_table !! ascii_lower (strip (py "fracture")))
  /\ exists ent, ent ∈ fracture_ents /\ text ent = py "fracture".
Proof.
  apply (icd_codes_entity_is_key ascii_lower fracture_table fracture_ents
           {| CodeResult.entity := py "fracture";
              CodeResult.icd_code := Some (py "FA01");
              CodeResult.icd_description := Some (py "Fracture");
              CodeResult.confidence := 1%float |}).
  vm_compute. left.
Defined.

Lemma resolve_ignores_padding_witness :
  let padded := resolve ascii_lower fracture_table
                  {| text := py "  Fracture "; label_ := py "DISEASE" |} in
  let bare := resolve ascii_lower fracture_table
                {| text := py "Fracture"; label_ := py "INJURY" |} in
  EntityResult.icd_code padded = EntityResult.icd_code bare
  /\ EntityResult.icd_description padded = EntityResult.icd_description bare
  /\ EntityResult.confidence padded = EntityResult.confidence bare.
Proof.
  apply (resolve_ignores_padding ascii_lower fracture_table
           (py "  ") (py "Fracture") (py " ") (py "DISEASE") (py "INJURY"));
    reflexivity.
Defined.

(** ** The converter: how tables are put together *)

Section ConverterTables.

Variable lower : pystr -> pystr.

Lemma foldl_convert_row_union d rows :
  foldl (convert_row lower) d rows = convert lower rows ∪ d.
Proof.
  induction rows as [|r rows IH] using rev_ind.
  - unfold convert. simpl. by rewrite (left_id_L ∅ (∪)).
  - rewrite foldl_snoc, convert_snoc, IH. destruct (row_accepted r) eqn:A.
    + rewrite !convert_row_accepted by done. apply insert_union_l.
    + by rewrite !convert_row_rejected.
Qed.

(** X8: the table of an export in two parts is the table of the second part
    laid over the table of the first: at a key of both, the second part
    wins. *)
Theorem convert_app (rows1 rows2 : list Row) :
  convert lower (rows1 ++ rows2) = convert lower rows2 ∪ convert lower rows1.
Proof.
  unfold convert at 1. rewrite foldl_app. apply foldl_convert_row_union.
Qed.

Lemma foldl_convert_row_filter d rows :
  foldl (convert_row lower) d rows
  = foldl (convert_row lower) d (filter (fun r => row_accepted r = true) rows).
Proof.
  revert d. induction rows as [|r rows IH]; intros d; [done|]. simpl.
  destruct (row_accepted r) eqn:A.
  - rewrite filter_cons_True by done. simpl. apply IH.
  - rewrite filter_cons_False by congruence.
    rewrite convert_row_rejected by done. apply IH.
Qed.

(** X9: rows that fail the test leave no trace: the table of an export is
    the table of its accepted rows alone. *)
Theorem convert_accepted_rows_only (rows : list Row) :
  convert lower rows
  = convert lower (filter (fun r => row_accepted r = true) rows).
Proof. apply foldl_convert_row_filter. Qed.

(** X10: the keys of the table are the lower-cased cleaned titles of the
    accepted rows, all of them and nothing else. *)
Theorem convert_keys (rows : list Row) (k : pystr) :
  k ∈ dom (convert lower rows)
  <-> exists row, row ∈ rows /\ row_accepted row = true
                  /\ lower (row_title row) = k.
Proof.
  rewrite elem_of_dom. split.
  - intros [e (pre & row & post & -> & A & K & _)%convert_lookup_Some].
    exists row. split; [|done]. apply elem_of_app. right. by left.
  - intros (row & Hin & A & <-). by apply convert_accepted_is_Some.
Qed.

Lemma foldl_convert_row_size d rows :
  size (foldl (convert_row lower) d rows)
  <= size d + length (filter (fun r => row_accepted r = true) rows).
Proof.
  revert d. induction rows as [|r rows IH]; intros d; simpl; [lia|].
  etrans; [apply IH|]. destruct (row_accepted r) eqn:A.
  - rewrite convert_row_accepted, filter_cons_True by done.
    rewrite map_size_insert. simpl.
    destruct (d !! lower (row_title r)); simpl; lia.
  - rewrite convert_row_rejected, filter_cons_False by congruence. lia.
Qed.

Lemma convert_dom_keys rows :
  dom (convert lower rows)
  = list_to_set ((fun r => lower (row_title r))
                   <$> filter (fun r => row_accepted r = true) rows).
Proof.
  apply set_eq. intros k.
  rewrite elem_of_dom, elem_of_list_to_set, list_elem_of_fmap. split.
  - intros [e (pre & row & post & -> & A & K & _)%convert_lookup_Some].
    exists row. split; [done|]. apply list_elem_of_filter. split; [done|].
    apply elem_of_app. right. by left.
  - intros (row & -> & [A Hin]%list_elem_of_filter).
    by apply convert_accepted_is_Some.
Qed.

Lemma size_list_to_set_remove_dups (l : list pystr) :
  size (list_to_set l : gset pystr) = length (remove_dups l).
Proof.
  rewrite <- (size_list_to_set (C:=gset pystr) (remove_dups l))
    by apply NoDup_remove_dups.
  f_equal. apply set_eq. intros x.
  by rewrite !elem_of_list_to_set, elem_of_remove_dups.
Qed.

(** X11: the count the converter prints is the number of distinct keys among
    the accepted rows; the number of accepted rows bounds it and, when two of
    them share a key, is not reached. *)
Theorem convert_count_distinct_keys (rows : list Row) :
  convert_count lower rows
  = length (remove_dups ((fun r => lower (row_title r))
                           <$> filter (fun r => row_accepted r = true) rows))
  /\ convert_count lower rows
     <= length (filter (fun r => row_accepted r = true) rows)
  /\ (forall pre r1 mid r2 post,
        rows = pre ++ r1 :: mid ++ r2 :: post ->
        row_accepted r1 = true -> row_accepted r2 = true ->
        lower (row_title r1) = lower (row_title r2) ->
        convert_count lower rows
        < length (filter (fun r => row_accepted r = true) rows)).
Proof.
  unfold convert_count. split; [|split].
  - rewrite <- size_list_to_set_remove_dups, <- convert_dom_keys.
    symmetry. apply size_dom.
  - pose proof (foldl_convert_row_size ∅ rows) as L.
    rewrite map_size_empty in L. exact L.
  - intros pre r1 mid r2 post -> A1 A2 K.
    replace (pre ++ r1 :: mid ++ r2 :: post)
      with ((pre ++ r1 :: mid) ++ r2 :: post) by (by rewrite <- app_assoc).
    rewrite convert_split, filter_app, length_app.
    rewrite filter_cons_True by done. simpl length.
    pose proof (foldl_convert_row_size
                  (convert_row lower (convert lower (pre ++ r1 :: mid)) r2)
                  post) as Lpost.
    pose proof (foldl_convert_row_size ∅ (pre ++ r1 :: mid)) as Lhead.
    rewrite map_size_empty in Lhead. fold (convert lower (pre ++ r1 :: mid)) in Lhead.
    rewrite convert_row_accepted in Lpost by done.
    rewrite map_size_insert in Lpost.
    destruct (convert_accepted_is_Some lower (pre ++ r1 :: mid) r1) as [e E];
      [apply elem_of_app; right; by left | done |].
    rewrite K in E. rewrite E in Lpost. simpl in Lpost.
    rewrite convert_row_accepted by done. lia.
Qed.

(** X12: every entry of the table holds a trimmed code and a trimmed
    description without hyphen. *)
Theorem convert_entries_clean (rows : list Row) (k : pystr) (e : TaxonomyEntry) :
  convert lower rows !! k = Some e ->
  strip (code e) = code e /\ strip (desc e) = desc e /\ hyphen ∉ desc e.
Proof.
  intros (pre & row & post & _ & _ & _ & -> & _)%convert_lookup_Some.
  unfold row_entry, row_code, row_title, clean_title. simpl.
  rewrite !strip_idemp. split; [done|]. split; [done|].
  intros H%elem_of_strip_by. unfold remove_hyphens in H.
  apply list_elem_of_filter in H as [H _]. done.
Qed.

(** X13: what the converter stores, the resolver finds: the description of
    an entry of the built table, with or without white space around it, is
    resolved to that entry, with confidence 1.0. *)
Theorem resolve_description_hit
    (rows : list Row) (k : pystr) (e : TaxonomyEntry) (w1 w2 lbl : pystr) :
  convert lower rows !! k = Some e ->
  blank w1 = true -> blank w2 = true ->
  resolve lower (convert lower rows)
    {| text := w1 ++ desc e ++ w2; label_ := lbl |}
  = {| EntityResult.text := w1 ++ desc e ++ w2;
       EntityResult.label := lbl;
       EntityResult.icd_code := Some (code e);
       EntityResult.icd_description := Some (desc e);
       EntityResult.confidence := 1%float |}.
Proof.
  intros E H1 H2.
  pose proof E as (pre & row & post & _ & _ & K & -> & _)%convert_lookup_Some.
  apply (resolve_found lower _ {| text := _; label_ := lbl |}). simpl.
  rewrite strip_pad by done. unfold row_title, clean_title.
  by rewrite strip_idemp, <- E, <- K.
Qed.

(** X14: over a table the converter built, the codes of [icd_codes] are the
    codes of [entities] that are not null: no entity has an empty code. *)
Theorem icd_codes_of_converted_table (rows : list Row) (ents : list Ent) :
  let r := aggregate lower (convert lower rows) ents in
  forall c, Some c ∈ (CodeResult.icd_code <$> icd_codes r)
    <-> Some c ∈ (EntityResult.icd_code <$> entities r).
Proof.
  intros r c. subst r. rewrite aggregate_entities.
  destruct (loop_inv_aggregate lower (convert lower rows) ents)
    as [_ Hs _ Hf Ha].
  split.
  - intros (cr & E & Hcr)%list_elem_of_fmap.
    destruct (Hf cr Hcr) as (pre & ent & post & c' & -> & Ec & _ & -> & _).
    simpl in E. injection E as ->.
    apply list_elem_of_fmap. exists (resolve lower (convert lower rows) ent).
    split; [done|]. apply list_elem_of_fmap. exists ent. split; [done|].
    apply elem_of_app. right. by left.
  - intros (er & E & (ent & -> & Hent)%list_elem_of_fmap)%list_elem_of_fmap.
    apply Hs, (Ha ent); [done | done |].
    destruct (convert lower rows !! lower (strip (text ent))) as [info|] eqn:L.
    + rewrite (resolve_found _ _ _ info) in E by done. simpl in E.
      injection E as ->.
      apply convert_lookup_Some in L as (? & row & ? & _ & A & _ & -> & _).
      by apply row_accepted_iff in A as (_ & Hc & _).
    + rewrite resolve_not_found in E by done. discriminate.
Qed.

End ConverterTables.

Lemma convert_count_distinct_keys_witness :
  convert_count ascii_lower cholera_rows
  < length (filter (fun r => row_accepted r = true) cholera_rows).
Proof.
  destruct (convert_count_distinct_keys ascii_lower cholera_rows) as (_ & _ & H).
  apply (H [] {| Code := Some (py "1A00"); Title := Some (py "Cholera");
                 ClassKind := Some (py "category") |}
           [] {| Code := Some (py "1A0Z"); Title := Some (py "cholera");
                 ClassKind := Some (py "category") |} []); reflexivity.
Defined.

(** Three accepted rows on two keys: the count is two. *)
Example convert_count_three_rows :
  convert_count ascii_lower
    (cholera_rows ++ [ {| Code := Some (py "1A01"); Title := Some (py "Typhoid");
                          ClassKind := Some (py "category") |} ]) = 2.
Proof. vm_compute. reflexivity. Qed.

Lemma convert_entries_clean_witness :
  strip (py "1A00") = py "1A00"
  /\ strip (py "Type1 Cholera") = py "Type1 Cholera"
  /\ hyphen ∉ py "Type1 Cholera".
Proof.
  apply (convert_entries_clean ascii_lower [cholera_row] (py "type1 cholera")
           {| code := py "1A00"; desc := py "Type1 Cholera" |}).
  by vm_compute.
Defined.

Lemma resolve_description_hit_witness :
  resolve ascii_lower (convert ascii_lower [cholera_row])
    {| text := py "  Type1 Cholera"; label_ := py "DISEASE" |}
  = {| EntityResult.text := py "  Type1 Cholera";
       EntityResult.label := py "DISEASE";
       EntityResult.icd_code := Some (py "1A00");
       EntityResult.icd_description := Some (py "Type1 Cholera");
       EntityResult.confidence := 1%float |}.
Proof.
  apply (resolve_description_hit ascii_lower [cholera_row] (py "type1 cholera")
           {| code := py "1A00"; desc := py "Type1 Cholera" |}
           (py "  ") [] (py "DISEASE")).
  - by vm_compute.
  - reflexivity.
  - reflexivity.
Defined.

(** ** Cells with white space around them *)

Lemma clean_title_pad w1 t w2 :
  blank w1 = true -> blank w2 = true ->
  clean_title (w1 ++ t ++ w2) = clean_title t.
Proof. intros H1 H2. unfold clean_title. by rewrite strip_pad. Qed.

(** X15: white space around the cells of a row does not change what the row
    does to the table. *)
Theorem convert_row_ignores_padding
    (lower : pystr -> pystr) (d : gmap pystr TaxonomyEntry)
    (c t k wc1 wc2 wt1 wt2 wk1 wk2 : pystr) :
  blank wc1 = true -> blank wc2 = true ->
  blank wt1 = true -> blank wt2 = true ->
  blank wk1 = true -> blank wk2 = true ->
  convert_row lower d
    {| Code := Some (wc1 ++ c ++ wc2); Title := Some (wt1 ++ t ++ wt2);
       ClassKind := Some (wk1 ++ k ++ wk2) |}
  = convert_row lower d
      {| Code := Some c; Title := Some t; ClassKind := Some k |}.
Proof.
  intros Hc1 Hc2 Ht1 Ht2 Hk1 Hk2.
  unfold convert_row, row_code, row_title, row_class_kind. simpl.
  by rewrite !strip_pad, clean_title_pad.
Qed.

Lemma convert_row_ignores_padding_witness :
  convert_row ascii_lower ∅
    {| Code := Some (py " 1A00 "); Title := Some (py "Cholera  ");
       ClassKind := Some (py "  category") |}
  = convert_row ascii_lower ∅
      {| Code := Some (py "1A00"); Title := Some (py "Cholera");
         ClassKind := Some (py "category") |}.
Proof.
  apply (convert_row_ignores_padding ascii_lower ∅
           (py "1A00") (py "Cholera") (py "category")
           (py " ") (py " ") [] (py "  ") (py "  ") []); reflexivity.
Defined.

(** ** Longer documents *)

Section ResponseGrowth.

Variable lower : pystr -> pystr.
Variable ICD11_DICT : gmap pystr TaxonomyEntry.

Lemma loop_icd_codes_prefix st more :
  st_icd_codes st `prefix_of` st_icd_codes (loop lower ICD11_DICT st more).
Proof.
  revert st. induction more as [|e more IH]; intros st; [done|].
  unfold loop in *. simpl. etrans; [|apply IH]. unfold loop_body.
  destruct (EntityResult.icd_code (resolve lower ICD11_DICT e)) as [c|]; [|done].
  destruct (truthy c && bool_decide (c ∉ seen_codes st)); simpl; [|done].
  by apply prefix_app_r.
Qed.

Lemma loop_icd_codes_seen st more :
  (forall e c, e ∈ more ->
     EntityResult.icd_code (resolve lower ICD11_DICT e) = Some c ->
     c <> [] -> c ∈ seen_codes st) ->
  st_icd_codes (loop lower ICD11_DICT st more) = st_icd_codes st.
Proof.
  revert st. induction more as [|e more IH]; intros st H; [done|].
  unfold loop in *. simpl.
  assert (K : loop_body lower ICD11_DICT st e
              = {| st_entities := st_entities st ++ [resolve lower ICD11_DICT e];
                   st_icd_codes := st_icd_codes st;
                   seen_codes := seen_codes st |}).
  { unfold loop_body.
    destruct (EntityResult.icd_code (resolve lower ICD11_DICT e)) as [c|] eqn:Ec;
      [|done].
    destruct (truthy c && bool_decide (c ∉ seen_codes st)) eqn:T; [|done].
    apply andb_prop in T as [T1%truthy_true T2%bool_decide_eq_true].
    destruct T2. apply (H e c); [left | done | done]. }
  rewrite K, IH; [done|]. simpl. intros e' c He'. apply H. by right.
Qed.

(** X16: a longer document only adds to [icd_codes]: the code results of the
    first entities stay, in place, at the head of the list; and entities
    whose codes are null, empty or among the codes of the entities before
    them add nothing. *)
Theorem icd_codes_grow (ents more : list Ent) :
  icd_codes (aggregate lower ICD11_DICT ents)
    `prefix_of` icd_codes (aggregate lower ICD11_DICT (ents ++ more))
  /\ ((forall e c, e ∈ more ->
         EntityResult.icd_code (resolve lower ICD11_DICT e) = Some c ->
         c <> [] ->
         exists e0, e0 ∈ ents
           /\ EntityResult.icd_code (resolve lower ICD11_DICT e0) = Some c) ->
      icd_codes (aggregate lower ICD11_DICT (ents ++ more))
      = icd_codes (aggregate lower ICD11_DICT ents)).
Proof.
  unfold aggregate, loop. simpl. rewrite foldl_app.
  fold (loop lower ICD11_DICT init_state ents).
  split; [apply loop_icd_codes_prefix|].
  intros H. apply loop_icd_codes_seen. intros e c He Ec Hc.
  destruct (H e c He Ec Hc) as (e0 & He0 & Ec0).
  destruct (loop_inv_aggregate lower ICD11_DICT ents) as [_ _ _ _ Ha].
  by apply (Ha e0).
Qed.

End ResponseGrowth.

Lemma icd_codes_grow_witness :
  icd_codes (aggregate ascii_lower fracture_table
               (fracture_ents ++ [{| text := py "FRACTURE "; label_ := py "X" |}]))
  = icd_codes (aggregate ascii_lower fracture_table fracture_ents).
Proof.
  destruct (icd_codes_grow ascii_lower fracture_table fracture_ents
              [{| text := py "FRACTURE "; label_ := py "X" |}]) as [_ H].
  apply H. intros e c ->%list_elem_of_singleton Ec _.
  exists {| text := py "fracture"; label_ := py "DISEASE" |}.
  split; [left | exact Ec].
Defined.
